(** * Claims Image Labeler: the two Lambda handlers and the React upload page

    The repository documents two Python Lambda handlers
    (ARCHITECTURE.md, sections 3.1 and 3.2) and ships a React page
    (frontend_backup/src/App.js).  This development embeds them:

    - [Json]: the values [json.loads] builds and a scanner for the JSON
      grammar the Python [json] module accepts;
    - [Py]: exceptions, [json.loads], subscripting and [str.startswith];
    - [Aws]: the calls a handler makes and the monad it runs in;
    - [AnalyzeImage], [GeneratePresignedUrl]: the two [lambda_handler]s,
      with the AWS clients as section variables;
    - [App]: the component state of App.js with [onFileChange],
      [mockAnalyze] and [handleUpload];
    - [Contract]: the Verdict contract as the specification words it;
    - [Text], [Sample]: texts with and without a JSON object inside, and
      a deployment to run the handlers on.

    Conventions.  Text is carried as its UTF-8 bytes in [string].  A
    Python [float] is carried as the exact rational value of its
    literal; rounding to binary64 is not modelled.  The body of an HTTP
    response is the value handed to [json.dumps], not its text.  The
    interpreter's own limits (call depth, digits of an [int] literal,
    memory) are not modelled. *)

From Stdlib Require Import ZArith QArith String Ascii List Bool Lia.
Import ListNotations.

Set Warnings "-register-all,-notation-for-abbreviation".

Local Open Scope string_scope.
Local Open Scope Z_scope.

(** ** JSON values and [json.loads] *)

Module Json.

(** What [json.loads] returns: [None], [bool], [int], [float] (with the
    two non-finite literals Python accepts), [str], [list], [dict].  A
    [dict] keeps insertion order, so it is an association list without
    duplicate keys. *)
Inductive json : Type :=
| JNull
| JBool (b : bool)
| JInt (n : Z)
| JFloat (q : Q)
| JNaN
| JInfinity (negative : bool)
| JString (s : string)
| JArray (items : list json)
| JObject (members : list (string * json)).

(** Outcome of scanning a prefix of the text. *)
Inductive scanned (A : Type) : Type :=
| Scan (a : A) (rest : string)
| Fail
| Exhausted.
Arguments Scan {A} a rest.
Arguments Fail {A}.
Arguments Exhausted {A}.

Definition dquote : ascii := ascii_of_nat 34.
Definition backslash : ascii := ascii_of_nat 92.
Definition tab : ascii := ascii_of_nat 9.
Definition lf : ascii := ascii_of_nat 10.
Definition cr : ascii := ascii_of_nat 13.

(** Writes a text with apostrophes where the JSON text has double
    quotes: [dq "{'a':1}"] is the text [{"a":1}]. *)
Fixpoint dq (s : string) : string :=
  match s with
  | EmptyString => EmptyString
  | String c s' => String (if (c =? "'")%char then dquote else c) (dq s')
  end.

Definition nl : string := String lf EmptyString.

(** *** Dictionaries *)

Fixpoint dict_get (k : string) (d : list (string * json)) : option json :=
  match d with
  | [] => None
  | (k', v) :: d' => if String.eqb k k' then Some v else dict_get k d'
  end.

(** [d[k] = v]: overwrite in place, or append a new key. *)
Fixpoint dict_set (k : string) (v : json) (d : list (string * json))
  : list (string * json) :=
  match d with
  | [] => [(k, v)]
  | (k', v') :: d' =>
      if String.eqb k k' then (k', v) :: d' else (k', v') :: dict_set k v d'
  end.

(** [dict(pairs)]. *)
Definition dict_of_pairs (pairs : list (string * json)) : list (string * json) :=
  fold_left (fun d kv => dict_set (fst kv) (snd kv) d) pairs [].

Definition dict_keys (d : list (string * json)) : list string := map fst d.

(** *** Lexical level *)

Definition is_whitespace (c : ascii) : bool :=
  ((c =? " ") || (c =? tab) || (c =? lf) || (c =? cr))%char.

Fixpoint skip_whitespace (s : string) : string :=
  match s with
  | EmptyString => s
  | String c s' => if is_whitespace c then skip_whitespace s' else s
  end.

Definition code (c : ascii) : Z := Z.of_N (N_of_ascii c).

Definition is_digit (c : ascii) : bool := (48 <=? code c) && (code c <=? 57).

Definition digit_value (c : ascii) : Z := code c - 48.

Definition hex_value (c : ascii) : option Z :=
  let n := code c in
  if (48 <=? n) && (n <=? 57) then Some (n - 48)
  else if (97 <=? n) && (n <=? 102) then Some (n - 87)
  else if (65 <=? n) && (n <=? 70) then Some (n - 55)
  else None.

Definition hex4 (a b c d : ascii) : option Z :=
  match hex_value a, hex_value b, hex_value c, hex_value d with
  | Some x, Some y, Some z, Some w => Some (((x * 16 + y) * 16 + z) * 16 + w)
  | _, _, _, _ => None
  end.

Definition byte (n : Z) : ascii := ascii_of_N (Z.to_N (n mod 256)).

(** UTF-8 encoding of one code point (a lone surrogate is encoded like
    any other three-byte code point). *)
Definition utf8 (u : Z) : string :=
  if u <? 128 then String (byte u) ""
  else if u <? 2048 then
    String (byte (Z.lor 192 (Z.shiftr u 6)))
      (String (byte (Z.lor 128 (Z.land u 63))) "")
  else if u <? 65536 then
    String (byte (Z.lor 224 (Z.shiftr u 12)))
      (String (byte (Z.lor 128 (Z.land (Z.shiftr u 6) 63)))
         (String (byte (Z.lor 128 (Z.land u 63))) ""))
  else
    String (byte (Z.lor 240 (Z.shiftr u 18)))
      (String (byte (Z.lor 128 (Z.land (Z.shiftr u 12) 63)))
         (String (byte (Z.lor 128 (Z.land (Z.shiftr u 6) 63)))
            (String (byte (Z.lor 128 (Z.land u 63))) ""))).

Definition escape_char (e : ascii) : option ascii :=
  if (e =? dquote)%char then Some dquote
  else if (e =? backslash)%char then Some backslash
  else if (e =? "/")%char then Some "/"%char
  else if (e =? "b")%char then Some (ascii_of_nat 8)
  else if (e =? "f")%char then Some (ascii_of_nat 12)
  else if (e =? "n")%char then Some lf
  else if (e =? "r")%char then Some cr
  else if (e =? "t")%char then Some tab
  else None.

Definition prepend (p : string) (r : option (string * string))
  : option (string * string) :=
  match r with
  | Some (a, rest) => Some (p ++ a, rest)
  | None => None
  end.

(** [scanstring], strict mode, entered just after the opening quote:
    the decoded string and the text after the closing quote. *)
Fixpoint scanstring (s : string) : option (string * string) :=
  match s with
  | EmptyString => None
  | String c rest =>
      if (c =? dquote)%char then Some ("", rest)
      else if (c =? backslash)%char then
        match rest with
        | EmptyString => None
        | String e rest1 =>
            if (e =? "u")%char then
              match rest1 with
              | String h1 (String h2 (String h3 (String h4 rest2))) =>
                  match hex4 h1 h2 h3 h4 with
                  | None => None
                  | Some uni =>
                      if (55296 <=? uni) && (uni <=? 56319) then
                        match rest2 with
                        | String b (String u rest3) =>
                            if ((b =? backslash) && (u =? "u"))%char then
                              match rest3 with
                              | String g1 (String g2 (String g3 (String g4 rest4))) =>
                                  match hex4 g1 g2 g3 g4 with
                                  | None => None
                                  | Some uni2 =>
                                      if (56320 <=? uni2) && (uni2 <=? 57343) then
                                        prepend
                                          (utf8 (65536 +
                                                 Z.lor (Z.shiftl (uni - 55296) 10)
                                                       (uni2 - 56320)))
                                          (scanstring rest4)
                                      else prepend (utf8 uni) (scanstring rest2)
                                  end
                              | _ => None
                              end
                            else prepend (utf8 uni) (scanstring rest2)
                        | _ => prepend (utf8 uni) (scanstring rest2)
                        end
                      else prepend (utf8 uni) (scanstring rest2)
                  end
              | _ => None
              end
            else
              match escape_char e with
              | Some x => prepend (String x "") (scanstring rest1)
              | None => None
              end
        end
      else if code c <? 32 then None
      else prepend (String c "") (scanstring rest)
  end.

Fixpoint span_digits (s : string) : string * string :=
  match s with
  | EmptyString => ("", "")
  | String c s' =>
      if is_digit c
      then let (d, r) := span_digits s' in (String c d, r)
      else ("", s)
  end.

Fixpoint digits_value (acc : Z) (d : string) : Z :=
  match d with
  | EmptyString => acc
  | String c d' => digits_value (10 * acc + digit_value c) d'
  end.

Definition strip_prefix_char (c : ascii) (s : string) : option string :=
  match s with
  | String c' s' => if (c =? c')%char then Some s' else None
  | EmptyString => None
  end.

Fixpoint strip_prefix (p s : string) : option string :=
  match p with
  | EmptyString => Some s
  | String c p' =>
      match strip_prefix_char c s with
      | Some s' => strip_prefix p' s'
      | None => None
      end
  end.

(** The integer part of NUMBER_RE, [0|[1-9][0-9]*], sign excluded. *)
Definition match_integer (s : string) : option (string * string) :=
  match s with
  | EmptyString => None
  | String c s' =>
      if (c =? "0")%char then Some ("0", s')
      else if is_digit c then Some (span_digits s)
      else None
  end.

(** [(\.[0-9]+)?] *)
Definition match_frac (s : string) : option (string * string) :=
  match strip_prefix_char "." s with
  | None => None
  | Some s' =>
      match span_digits s' with
      | (EmptyString, _) => None
      | (d, r) => Some (d, r)
      end
  end.

(** [([eE][-+]?[0-9]+)?] *)
Definition match_exp (s : string) : option (Z * string) :=
  match s with
  | EmptyString => None
  | String c s' =>
      if ((c =? "e") || (c =? "E"))%char then
        let '(sign, s'') :=
          match s' with
          | String c' t =>
              if (c' =? "-")%char then (-1, t)
              else if (c' =? "+")%char then (1, t)
              else (1, s')
          | EmptyString => (1, s')
          end in
        match span_digits s'' with
        | (EmptyString, _) => None
        | (d, r) => Some (sign * digits_value 0 d, r)
        end
      else None
  end.

(** [float(integer + frac + exp)], as an exact rational in lowest
    terms. *)
Definition float_of_literal (negative : bool) (int frac : string) (exp : Z) : Q :=
  let scale := 10 ^ Z.of_nat (String.length frac) in
  let mantissa := digits_value 0 int * scale + digits_value 0 frac in
  let m := if negative then - mantissa else mantissa in
  Qred ((inject_Z m / inject_Z scale) * Qpower (inject_Z 10) exp).

Definition match_number (s : string) : option (json * string) :=
  let '(negative, s1) :=
    match strip_prefix_char "-" s with
    | Some t => (true, t)
    | None => (false, s)
    end in
  match match_integer s1 with
  | None => None
  | Some (int, s2) =>
      let '(frac, s3) :=
        match match_frac s2 with
        | Some (f, r) => (Some f, r)
        | None => (None, s2)
        end in
      let '(exp, s4) :=
        match match_exp s3 with
        | Some (e, r) => (Some e, r)
        | None => (None, s3)
        end in
      match frac, exp with
      | None, None =>
          let n := digits_value 0 int in
          Some (JInt (if negative then - n else n), s4)
      | _, _ =>
          Some (JFloat (float_of_literal negative int
                          (match frac with Some f => f | None => "" end)
                          (match exp with Some e => e | None => 0 end)), s4)
      end
  end.

Definition scan_map {A B : Type} (f : A -> B) (r : scanned A) : scanned B :=
  match r with
  | Scan a rest => Scan (f a) rest
  | Fail => Fail
  | Exhausted => Exhausted
  end.

Definition literal (p : string) (v : json) (s : string) : option (json * string) :=
  match strip_prefix p s with
  | Some rest => Some (v, rest)
  | None => None
  end.

(** The cases of [scan_once] that do not recurse, in the order the
    scanner tries them once strings, objects and arrays are excluded. *)
Definition scan_atom (s : string) : scanned json :=
  let first {A} (tries : list (option A)) : option A :=
    fold_right (fun t acc => match t with Some _ => t | None => acc end) None tries in
  match first [ literal "null" JNull s; literal "true" (JBool true) s;
                literal "false" (JBool false) s; match_number s;
                literal "NaN" JNaN s; literal "Infinity" (JInfinity false) s;
                literal "-Infinity" (JInfinity true) s ] with
  | Some (v, rest) => Scan v rest
  | None => Fail
  end.

(** *** Values, arrays and objects

    [scan_once] is entered at the first character of a value,
    [scan_elements] at the first element of a non-empty array,
    [scan_members] just after the opening quote of a key.  The fuel
    stands for the interpreter's call depth; see [loads] for the
    amount given. *)
Fixpoint scan_once (fuel : nat) (s : string) : scanned json :=
  match fuel with
  | O => Exhausted
  | S fuel' =>
      match s with
      | EmptyString => Fail
      | String c rest =>
          if (c =? dquote)%char then
            match scanstring rest with
            | Some (str, r) => Scan (JString str) r
            | None => Fail
            end
          else if (c =? "{")%char then
            match skip_whitespace rest with
            | EmptyString => Fail
            | String c' r =>
                if (c' =? "}")%char then Scan (JObject []) r
                else if (c' =? dquote)%char then
                  scan_map (fun pairs => JObject (dict_of_pairs pairs))
                           (scan_members fuel' r)
                else Fail
            end
          else if (c =? "[")%char then
            match skip_whitespace rest with
            | EmptyString => Fail
            | String c' r =>
                if (c' =? "]")%char then Scan (JArray []) r
                else scan_map JArray (scan_elements fuel' (String c' r))
            end
          else scan_atom s
      end
  end

with scan_elements (fuel : nat) (s : string) : scanned (list json) :=
  match fuel with
  | O => Exhausted
  | S fuel' =>
      match scan_once fuel' s with
      | Scan v r =>
          match skip_whitespace r with
          | EmptyString => Fail
          | String c r' =>
              if (c =? "]")%char then Scan [v] r'
              else if (c =? ",")%char then
                scan_map (cons v) (scan_elements fuel' (skip_whitespace r'))
              else Fail
          end
      | Fail => Fail
      | Exhausted => Exhausted
      end
  end

with scan_members (fuel : nat) (s : string) : scanned (list (string * json)) :=
  match fuel with
  | O => Exhausted
  | S fuel' =>
      match scanstring s with
      | None => Fail
      | Some (key, r) =>
          match strip_prefix_char ":" (skip_whitespace r) with
          | None => Fail
          | Some r1 =>
              match scan_once fuel' (skip_whitespace r1) with
              | Scan v r2 =>
                  match skip_whitespace r2 with
                  | EmptyString => Fail
                  | String c r3 =>
                      if (c =? "}")%char then Scan [(key, v)] r3
                      else if (c =? ",")%char then
                        match strip_prefix_char dquote (skip_whitespace r3) with
                        | Some r4 =>
                            scan_map (cons (key, v)) (scan_members fuel' r4)
                        | None => Fail
                        end
                      else Fail
                  end
              | Fail => Fail
              | Exhausted => Exhausted
              end
          end
      end
  end.

End Json.

(** ** Python run-time: exceptions, results, subscripting *)

Module Py.
Import Json.

(** [RecursionError] is what [loads] answers should the scanner run out
    of fuel, which it never does ([loads_never_exhausted]);
    [ServiceError] stands for whatever an AWS client raises. *)
Inductive exception : Type :=
| JSONDecodeError
| RecursionError
| KeyError (key : json)
| IndexError
| TypeError
| AttributeError
| ServiceError (name : string).

Inductive result (A : Type) : Type :=
| Return (a : A)
| Raise (e : exception).
Arguments Return {A} a.
Arguments Raise {A} e.

(** [json.loads(s)] for a [str]: leading whitespace, one value,
    trailing whitespace, nothing else.  Every scanner call consumes one
    unit of fuel and a character of the text at least every second
    call, so twice the length is never used up
    (see [loads_never_exhausted]). *)
Definition loads (s : string) : result json :=
  match scan_once (2 * String.length s + 1) (skip_whitespace s) with
  | Scan v rest =>
      match skip_whitespace rest with
      | EmptyString => Return v
      | String _ _ => Raise JSONDecodeError
      end
  | Fail => Raise JSONDecodeError
  | Exhausted => Raise RecursionError
  end.

(** [json.loads(x)] for a value [x] that need not be a [str]. *)
Definition json_loads (x : json) : result json :=
  match x with
  | JString s => loads s
  | _ => Raise TypeError
  end.

(** [v[k]] with a [str] key. *)
Definition getitem (v : json) (k : string) : result json :=
  match v with
  | JObject d =>
      match dict_get k d with
      | Some x => Return x
      | None => Raise (KeyError (JString k))
      end
  | _ => Raise TypeError
  end.

Definition is_continuation (c : ascii) : bool := Z.land (code c) 192 =? 128.

Fixpoint take_continuation (s : string) : string :=
  match s with
  | EmptyString => EmptyString
  | String c s' => if is_continuation c then String c (take_continuation s') else EmptyString
  end.

(** [v[0]]. *)
Definition getfirst (v : json) : result json :=
  match v with
  | JArray (x :: _) => Return x
  | JArray [] => Raise IndexError
  | JString (String c s) => Return (JString (String c (take_continuation s)))
  | JString EmptyString => Raise IndexError
  | JObject _ => Raise (KeyError (JInt 0))
  | _ => Raise TypeError
  end.

Fixpoint prefix (p s : string) : bool :=
  match p, s with
  | EmptyString, _ => true
  | String a p', String b s' => (a =? b)%char && prefix p' s'
  | String _ _, EmptyString => false
  end.

(** [v.startswith(p)]: only [str] has the method. *)
Definition startswith (v : json) (p : string) : result bool :=
  match v with
  | JString s => Return (prefix p s)
  | _ => Raise AttributeError
  end.

End Py.

(** ** What the handlers do to the outside world *)

Module Aws.
Import Json Py.

Record MetricDatum : Type := {
  MetricName : string;
  Value : json;
  Dimensions : list (string * json);
  Unit : option string
}.

Inductive effect : Type :=
| GetObject (bucket key : json)
| Converse (modelId image prompt : string)
| Log (line : json)
| PutMetricData (namespace : string) (data : list MetricDatum)
| GeneratePresignedUrl (method : string) (params : list (string * json)) (expires : Z).

(** A handler run: the calls made so far, and a value or the exception
    that ended the run. *)
Definition M (A : Type) : Type := (list effect * result A)%type.

Definition ret {A : Type} (a : A) : M A := ([], Return a).

Definition lift {A : Type} (r : result A) : M A := ([], r).

Definition call {A : Type} (e : effect) (r : result A) : M A := ([e], r).

Definition bind {A B : Type} (m : M A) (k : A -> M B) : M B :=
  match m with
  | (t, Return a) => let (t', r) := k a in ((t ++ t')%list, r)
  | (t, Raise e) => (t, Raise e)
  end.

Definition outcome {A : Type} (m : M A) : result A := snd m.

Record response : Type := { statusCode : Z; body : json }.

End Aws.

Declare Scope handler_scope.
Delimit Scope handler_scope with handler.
Notation "x <- m ;; k" := (Aws.bind m (fun x => k))
  (at level 61, m at next level, right associativity) : handler_scope.
Notation "m ;;; k" := (Aws.bind m (fun _ => k))
  (at level 61, right associativity) : handler_scope.
Notation "' pat <- m ;; k" :=
  (Aws.bind m (fun x => match x with pat => k end))
  (at level 61, pat pattern, m at next level, right associativity)
  : handler_scope.

(** ** analyzeImage (ARCHITECTURE.md, section 3.2) *)

Module AnalyzeImage.
Import Json Py Aws.
Local Open Scope handler_scope.

Record context : Type := { request_id : string }.

Definition model_id : string := "anthropic.claude-3-5-sonnet-20241022-v2:0".

Definition prompt : string :=
  "You are a claims fraud screener. Analyze this image and determine if it appears to be AI-generated or digitally manipulated."
  ++ nl ++ nl
  ++ "Return your analysis as JSON with these fields:" ++ nl
  ++ dq "- verdict: One of 'AI_GENERATED', 'LIKELY_REAL', or 'INCONCLUSIVE'" ++ nl
  ++ "- confidence: A number between 0 and 1 indicating your confidence" ++ nl
  ++ "- hints: An array of 3-6 short observations explaining your decision"
  ++ nl ++ nl
  ++ "Focus on: lighting inconsistencies, texture repetition, edge artifacts, unnatural reflections, depth of field anomalies, and other AI generation artifacts.".

Section Handler.

(** The module-level clients.  [s3_get_object bucket key] is
    [s3_client.get_object(Bucket=bucket, Key=key)['Body'].read()];
    [now i] is the i-th reading of [datetime.now()] in the invocation,
    in seconds. *)
Variable s3_get_object : json -> json -> result string.
Variable bedrock_converse : string -> string -> string -> result json.
Variable cloudwatch_put_metric_data : string -> list MetricDatum -> result unit.
Variable now : nat -> Q.

(** Lines 199-242: parse the request, fetch the image, call the model
    and take the text of its answer.  Returns [bucket], [key] and
    [ai_response]. *)
Definition call_model (event : json) : M (json * json * json) :=
  request <- lift (getitem event "body") ;;
  body <- lift (json_loads request) ;;
  bucket <- lift (getitem body "bucket") ;;
  key <- lift (getitem body "key") ;;
  image_bytes <- call (GetObject bucket key) (s3_get_object bucket key) ;;
  response <- call (Converse model_id image_bytes prompt)
                   (bedrock_converse model_id image_bytes prompt) ;;
  output <- lift (getitem response "output") ;;
  message <- lift (getitem output "message") ;;
  content <- lift (getitem message "content") ;;
  first <- lift (getfirst content) ;;
  ai_response <- lift (getitem first "text") ;;
  ret (bucket, key, ai_response).

Definition latency_ms : Q := Qred ((now 1 - now 0) * 1000).

(** The structured log line. *)
Definition log_line (ctx : context) (bucket key verdict confidence : json) : json :=
  JObject [ ("requestId", JString (request_id ctx));
            ("bucket", bucket);
            ("key", key);
            ("model", JString "claude-3-5-sonnet");
            ("latency", JFloat latency_ms);
            ("verdict", verdict);
            ("confidence", confidence) ].

(** The [MetricData] list. *)
Definition metric_data (verdict confidence : json) : list MetricDatum :=
  [ {| MetricName := "Verdict"; Value := JInt 1;
       Dimensions := [("VerdictType", verdict)]; Unit := None |};
    {| MetricName := "Confidence"; Value := confidence;
       Dimensions := [("Verdict", verdict)]; Unit := None |};
    {| MetricName := "Latency"; Value := JFloat latency_ms;
       Dimensions := []; Unit := Some "Milliseconds" |} ].

Definition namespace : string := "ClaimsImageLabeler".

(** Lines 243-288: parse the answer, log, emit metrics, respond.  The
    two fields are read when the log line is built, [verdict] first. *)
Definition parse_response (ctx : context) (bucket key ai_response : json)
  : M response :=
  analysis <- lift (json_loads ai_response) ;;
  verdict <- lift (getitem analysis "verdict") ;;
  confidence <- lift (getitem analysis "confidence") ;;
  call (Log (log_line ctx bucket key verdict confidence)) (Return tt) ;;;
  call (PutMetricData namespace (metric_data verdict confidence))
       (cloudwatch_put_metric_data namespace (metric_data verdict confidence)) ;;;
  ret {| statusCode := 200; body := analysis |}.

Definition lambda_handler (event : json) (ctx : context) : M response :=
  '(bucket, key, ai_response) <- call_model event ;;
  parse_response ctx bucket key ai_response.

(** The outcome of lines 243-288 written as one case analysis on the
    text the model returned; [parse_response_outcome] shows that this
    is what [parse_response] computes. *)
Definition expected (raw : string) : result response :=
  match loads raw with
  | Raise e => Raise e
  | Return analysis =>
      match getitem analysis "verdict" with
      | Raise e => Raise e
      | Return verdict =>
          match getitem analysis "confidence" with
          | Raise e => Raise e
          | Return confidence =>
              match cloudwatch_put_metric_data namespace
                      (metric_data verdict confidence) with
              | Raise e => Raise e
              | Return _ => Return {| statusCode := 200; body := analysis |}
              end
          end
      end
  end.

End Handler.

(** The answer Bedrock's Converse API gives when the model says [text]. *)
Definition converse_reply (text : string) : json :=
  JObject [("output",
            JObject [("message",
                      JObject [("role", JString "assistant");
                               ("content",
                                JArray [JObject [("text", JString text)]])])])].

End AnalyzeImage.

(** ** generatePresignedUrl (ARCHITECTURE.md, section 3.1) *)

Module GeneratePresignedUrl.
Import Json Py Aws.
Local Open Scope handler_scope.

Section Handler.

(** [BUCKET_NAME] and [error_response] are used by the handler and
    defined nowhere in the repository; [uuid4] is the text of
    [uuid.uuid4()] drawn in this invocation; [py_str] is Python's
    [str()] on values that are not already a [str]. *)
Variable BUCKET_NAME : string.
Variable error_response : Z -> string -> response.
Variable uuid4 : string.
Variable py_str : json -> string.
Variable s3_generate_presigned_url :
  string -> list (string * json) -> Z -> result string.

(** [f"{v}"] *)
Definition format (v : json) : string :=
  match v with
  | JString s => s
  | _ => py_str v
  end.

Definition lambda_handler (event : json) : M response :=
  request <- lift (getitem event "body") ;;
  body <- lift (json_loads request) ;;
  file_name <- lift (getitem body "fileName") ;;
  file_type <- lift (getitem body "fileType") ;;
  is_image <- lift (startswith file_type "image/") ;;
  if negb is_image then ret (error_response 400 "Invalid file type")
  else
    let key := "uploads/" ++ uuid4 ++ "-" ++ format file_name in
    let params := [ ("Bucket", JString BUCKET_NAME);
                    ("Key", JString key);
                    ("ContentType", file_type) ] in
    url <- call (GeneratePresignedUrl "put_object" params 900)
                (s3_generate_presigned_url "put_object" params 900) ;;
    ret {| statusCode := 200;
           body := JObject [ ("url", JString url);
                             ("key", JString key);
                             ("bucket", JString BUCKET_NAME) ] |}.

End Handler.

End GeneratePresignedUrl.

(** ** The upload page (frontend_backup/src/App.js) *)

Module App.
Import Json.

Section Component.

(** The browser's [File] objects; the component never looks inside. *)
Variable File : Type.

(** The four [useState] cells. *)
Record state : Type := {
  file : option File;
  isUploading : bool;
  result : option json;
  error : string
}.

Definition initial : state :=
  {| file := None; isUploading := false; result := None; error := "" |}.

Definition setFile (f : option File) (s : state) : state :=
  {| file := f; isUploading := isUploading s; result := result s; error := error s |}.

Definition setUploading (b : bool) (s : state) : state :=
  {| file := file s; isUploading := b; result := result s; error := error s |}.

Definition setResult (r : option json) (s : state) : state :=
  {| file := file s; isUploading := isUploading s; result := r; error := error s |}.

Definition setError (e : string) (s : state) : state :=
  {| file := file s; isUploading := isUploading s; result := result s; error := e |}.

(** [e.target.files?.[0] || null], then both displays are cleared. *)
Definition onFileChange (files : list File) (s : state) : state :=
  setError "" (setResult None (setFile (hd_error files) s)).

Definition mock_delay_ms : Z := 800.

(** What [mockAnalyze()] resolves to once its timer has fired. *)
Definition mockAnalyze : json :=
  JObject [ ("summary", JString "No anomalies detected (mock).");
            ("hints", JArray [ JString "Lighting consistent.";
                               JString "No texture repetition.";
                               JString "No tampering found." ]) ].

(** How a block was left. *)
Inductive completion : Type := Normal | Returned | Thrown.

(** The [try] block.  No other event is handled while the handler
    awaits the mock. *)
Definition handleUpload_try (s : state) : state * completion :=
  match file s with
  | None => (s, Returned)
  | Some _ =>
      let s1 := setUploading true s in
      let s2 := setError "" s1 in
      let analysis := mockAnalyze in
      (setResult (Some analysis) s2, Normal)
  end.

Definition handleUpload_catch (r : state * completion) : state * completion :=
  match r with
  | (s, Thrown) => (setError "Error during upload or analysis." s, Normal)
  | _ => r
  end.

Definition handleUpload_finally (r : state * completion) : state :=
  setUploading false (fst r).

Definition handleUpload (s : state) : state :=
  handleUpload_finally (handleUpload_catch (handleUpload_try s)).

(** The button's [disabled] attribute. *)
Definition button_disabled (s : state) : bool :=
  match file s with
  | None => true
  | Some _ => isUploading s
  end.

End Component.

Arguments setFile {File} f s.
Arguments file {File} s.
Arguments isUploading {File} s.
Arguments result {File} s.
Arguments error {File} s.
Arguments handleUpload_try {File} s.
Arguments handleUpload {File} s.
Arguments onFileChange {File} files s.
Arguments button_disabled {File} s.

End App.

(** ** The Verdict contract, as the specification words it *)

Module Contract.
Import Json.

Definition verdict_literals : list string :=
  ["AI_GENERATED"; "LIKELY_REAL"; "INCONCLUSIVE"].

Definition hint_cap : nat := 6.

Definition is_space (c : ascii) : bool :=
  let n := code c in (n =? 32) || ((9 <=? n) && (n <=? 13)).

Fixpoint ltrim (s : string) : string :=
  match s with
  | EmptyString => EmptyString
  | String c s' => if is_space c then ltrim s' else s
  end.

Fixpoint rtrim (s : string) : string :=
  match s with
  | EmptyString => EmptyString
  | String c s' =>
      match rtrim s' with
      | EmptyString => if is_space c then EmptyString else String c EmptyString
      | r => String c r
      end
  end.

Definition trim (s : string) : string := rtrim (ltrim s).

(** [verdict]: one of the closed set, never any other value. *)
Definition valid_verdict (v : json) : bool :=
  match v with
  | JString s => existsb (String.eqb s) verdict_literals
  | _ => false
  end.

(** [confidence]: a number in the closed interval from 0 to 1. *)
Definition valid_confidence (v : json) : bool :=
  match v with
  | JInt n => (0 <=? n) && (n <=? 1)
  | JFloat q => Qle_bool 0 q && Qle_bool q 1
  | _ => false
  end.

Definition valid_hint (v : json) : bool :=
  match v with
  | JString s => negb (String.eqb (trim s) "")
  | _ => false
  end.

(** [hints]: at most [hint_cap] strings, each non-empty after trimming. *)
Definition valid_hints (v : json) : bool :=
  match v with
  | JArray l => (List.length l <=? hint_cap)%nat && forallb valid_hint l
  | _ => false
  end.

(** A record meets the contract when all three fields are there and
    each meets its constraint. *)
Definition conforms (r : json) : bool :=
  match r with
  | JObject d =>
      match dict_get "verdict" d, dict_get "confidence" d, dict_get "hints" d with
      | Some v, Some c, Some h => valid_verdict v && valid_confidence c && valid_hints h
      | _, _, _ => false
      end
  | _ => false
  end.

End Contract.

(** ** Raw texts with no JSON object inside *)

Module Text.
Import Json Py.

Fixpoint prefixes (s : string) : list string :=
  match s with
  | EmptyString => [EmptyString]
  | String c s' => EmptyString :: map (String c) (prefixes s')
  end.

Fixpoint suffixes (s : string) : list string :=
  match s with
  | EmptyString => [EmptyString]
  | String _ s' => s :: suffixes s'
  end.

Definition substrings (s : string) : list string :=
  flat_map prefixes (suffixes s).

Definition is_object_text (t : string) : bool :=
  match loads t with
  | Return (JObject _) => true
  | _ => false
  end.

(** Some contiguous part of [raw] is the text of a JSON object. *)
Definition embedded_object (raw : string) : bool :=
  existsb is_object_text (substrings raw).

End Text.

(** ** A sample deployment

    Stand-ins for the AWS clients, with the request and response shapes
    of README.md, to run the handlers on concrete texts. *)

Module Sample.
Import Json Py Aws.

Definition s3_get_object : json -> json -> result string :=
  fun _ _ => Return "<image bytes>".

(** A model that answers [text] whatever it is shown. *)
Definition bedrock_converse (text : string)
  : string -> string -> string -> result json :=
  fun _ _ _ => Return (AnalyzeImage.converse_reply text).

Definition cloudwatch_put_metric_data : string -> list MetricDatum -> result unit :=
  fun _ _ => Return tt.

Definition now (i : nat) : Q := inject_Z (3 * Z.of_nat i).

Definition analyze_event : json :=
  JObject [("body",
            JString (dq "{'bucket':'claims-images-bucket','key':'uploads/12345-vehicle_damage.jpg'}"))].

Definition ctx : AnalyzeImage.context := {| AnalyzeImage.request_id := "req-1" |}.

(** One invocation of analyzeImage in which the model answers [text]. *)
Definition analyze (text : string) : M response :=
  AnalyzeImage.lambda_handler s3_get_object (bedrock_converse text)
    cloudwatch_put_metric_data now analyze_event ctx.

(** The texts of the specification's examples. *)
Definition embedded_answer : string :=
  dq "{'verdict':'AI_GENERATED','confidence':0.92,'hints':['edge halos']}".

Definition prose_answer : string :=
  "Sure, here you go:" ++ nl ++ embedded_answer ++ nl
  ++ "Let me know if you need more.".

Definition refusal : string := "I cannot analyze this image.".

Definition defaulting_answer : string := dq "{'confidence': 1.7}".

Definition lowercase_answer : string :=
  dq "{'verdict':'ai_generated','confidence':0.5,'hints':[]}".

Definition clamping_answer : string :=
  dq "{'verdict':'LIKELY_REAL','confidence': -0.3,'hints':['a']}".

Definition ten_hints_answer : string :=
  dq "{'verdict':'AI_GENERATED','confidence':0.5,'hints':['h1','h2','h3','h4','h5','h6','h7','h8','h9','h10']}".

Definition out_of_contract_answer : string :=
  dq "{'verdict':'BANANA','confidence':1.7,'hints':['a','b','c','d','e','f',' ',7]}".

(** The values the scanner builds from some of these texts. *)
Definition embedded_record : json :=
  JObject [ ("verdict", JString "AI_GENERATED");
            ("confidence", JFloat (Qred 0.92));
            ("hints", JArray [JString "edge halos"]) ].

Definition clamping_record : json :=
  JObject [ ("verdict", JString "LIKELY_REAL");
            ("confidence", JFloat (-0.3));
            ("hints", JArray [JString "a"]) ].

Definition ten_hints : list json :=
  map JString ["h1"; "h2"; "h3"; "h4"; "h5"; "h6"; "h7"; "h8"; "h9"; "h10"].

Definition ten_hints_record : json :=
  JObject [ ("verdict", JString "AI_GENERATED");
            ("confidence", JFloat (Qred 0.5));
            ("hints", JArray ten_hints) ].

Definition out_of_contract_record : json :=
  JObject [ ("verdict", JString "BANANA");
            ("confidence", JFloat 1.7);
            ("hints", JArray [ JString "a"; JString "b"; JString "c";
                               JString "d"; JString "e"; JString "f";
                               JString " "; JInt 7 ]) ].

Definition ok (record : json) : response :=
  {| statusCode := 200; body := record |}.

(** A second deployment: other request, context and clock. *)
Definition analyze_event' : json :=
  JObject [("body", JString (dq "{'bucket':'b','key':'uploads/k.png'}"))].

Definition ctx' : AnalyzeImage.context := {| AnalyzeImage.request_id := "req-2" |}.

Definition now' (i : nat) : Q := inject_Z (100 + 7 * Z.of_nat i).

Definition BUCKET_NAME : string := "claims-images-bucket".

Definition error_response (status : Z) (message : string) : response :=
  {| statusCode := status; body := JObject [("error", JString message)] |}.

Definition uuid4 : string := "12345".

Definition py_str : json -> string := fun _ => "<object>".

Definition s3_generate_presigned_url
  : string -> list (string * json) -> Z -> result string :=
  fun _ _ _ => Return "https://bucket.s3.amazonaws.com/uploads/12345-vehicle_damage.jpg?X-Amz-...".

Definition presign_event (fileName fileType : string) : json :=
  JObject [("body",
            JString (dq "{'fileName': '" ++ fileName
                     ++ dq "', 'fileType': '" ++ fileType ++ dq "'}"))].

(** A page state with the busy flag set and no file selected. *)
Definition busy_without_file : App.state unit :=
  {| App.file := None; App.isUploading := true;
     App.result := None; App.error := "" |}.

Definition presign (fileName fileType : string) : M response :=
  GeneratePresignedUrl.lambda_handler BUCKET_NAME error_response uuid4 py_str
    s3_generate_presigned_url (presign_event fileName fileType).

End Sample.

(** ** The upload page with its timer

    [handleUpload] is an async function: it runs up to
    [await mockAnalyze()], gives control back, and goes on when the
    800 ms timer of the mock has fired.  Between the two halves the page
    handles other events. *)

Module Page.
Import Json App.

Section Component.

Variable File : Type.

(** From the call up to the [await]: the final state when the handler
    left through [return] (the [finally] block has then run), or the
    state in which it waits, marked [true]. *)
Definition handleUpload_start (s : state File) : state File * bool :=
  match file s with
  | None => (setUploading File false s, false)
  | Some _ => (setError File "" (setUploading File true s), true)
  end.

(** From the [await] to the end: [setResult(analysis)], then the
    [finally] block. *)
Definition handleUpload_resume (analysis : json) (s : state File) : state File :=
  setUploading File false (setResult File (Some analysis) s).

(** The page: the four cells and the number of handlers waiting for
    their timer. *)
Record page : Type := { ui : state File; waiting : nat }.

Definition start_page : page := {| ui := initial File; waiting := 0 |}.

(** What can happen: the file input changes, the button is clicked, a
    timer fires. *)
Inductive event : Type :=
| Change (files : list File)
| Click
| Timer.

(** A disabled button fires no click; a timer exists only while a
    handler waits. *)
Definition step (p : page) (e : event) : page :=
  match e with
  | Change files => {| ui := onFileChange files (ui p); waiting := waiting p |}
  | Click =>
      if button_disabled (ui p) then p
      else
        let (s, suspended) := handleUpload_start (ui p) in
        {| ui := s; waiting := if suspended then S (waiting p) else waiting p |}
  | Timer =>
      match waiting p with
      | O => p
      | S n => {| ui := handleUpload_resume mockAnalyze (ui p); waiting := n |}
      end
  end.

Definition run (events : list event) : page := fold_left step events start_page.

(** A page at rest or with one upload under way: no error message, at
    most one handler waiting, the busy flag set exactly while one
    waits, and no result other than the mock's record. *)
Definition settled (p : page) : Prop :=
  error (ui p) = "" /\
  (waiting p <= 1)%nat /\
  (isUploading (ui p) = true <-> waiting p = 1%nat) /\
  (result (ui p) = None \/ result (ui p) = Some mockAnalyze).

End Component.

Arguments handleUpload_start {File} s.
Arguments handleUpload_resume {File} analysis s.
Arguments ui {File} p.
Arguments waiting {File} p.
Arguments Change {File} files.
Arguments Click {File}.
Arguments Timer {File}.
Arguments step {File} p e.
Arguments run {File} events.
Arguments settled {File} p.

End Page.

(** ** The sidebar (frontend/src/components/Sidebar.jsx) *)

Module Sidebar.

(** A navigation entry; [icon] is the name of the imported component. *)
Record item : Type := {
  id : string;
  label : string;
  icon : string;
  description : option string
}.

Definition navigationItems : list item :=
  [ {| id := "detect"; label := "AI Detection"; icon := "FiScan";
       description := Some "Upload & analyze images" |};
    {| id := "analytics"; label := "Analytics"; icon := "FiBarChart3";
       description := Some "View detection stats" |};
    {| id := "history"; label := "History"; icon := "FiClock";
       description := Some "Past analyses" |};
    {| id := "batch"; label := "Batch Processing"; icon := "FiFileText";
       description := Some "Bulk analysis" |} ].

Definition bottomItems : list item :=
  [ {| id := "settings"; label := "Settings"; icon := "FiSettings";
       description := None |};
    {| id := "help"; label := "Help & Support"; icon := "FiHelpCircle";
       description := None |} ].

(** [useState('detect')] *)
Definition initial : string := "detect".

(** [activeItem === item.id] *)
Definition isActive (activeItem : string) (it : item) : bool :=
  String.eqb activeItem (id it).

(** The [onClick] of an entry: [setActiveItem(item.id)]. *)
Definition onClick (it : item) (activeItem : string) : string := id it.

(** [`nav-item ${isActive ? 'active' : ''}`] *)
Definition className (activeItem : string) (it : item) : string :=
  "nav-item " ++ (if isActive activeItem it then "active" else "").

(** The entries drawn, main navigation first. *)
Definition rendered : list item := navigationItems ++ bottomItems.

(** The state after clicking the given entries in turn. *)
Definition after (clicks : list item) : string :=
  fold_left (fun a it => onClick it a) clicks initial.

(** The mobile overlay is drawn when the sidebar is open, and the
    sidebar is shifted out of view when it is not. *)
Definition overlay (isOpen : bool) : bool := isOpen.

Definition transform (isOpen : bool) : string :=
  if isOpen then "translateX(0)" else "translateX(-100%)".

End Sidebar.

(** ** Clients that fail *)

Module Outage.
Import Json Py Aws.

Definition s3_get_object : json -> json -> result string :=
  fun _ _ => Raise (ServiceError "NoSuchKey").

Definition bedrock_converse : string -> string -> string -> result json :=
  fun _ _ _ => Raise (ServiceError "ThrottlingException").

Definition cloudwatch_put_metric_data : string -> list MetricDatum -> result unit :=
  fun _ _ => Raise (ServiceError "AccessDenied").

Definition s3_generate_presigned_url
  : string -> list (string * json) -> Z -> result string :=
  fun _ _ _ => Raise (ServiceError "NoCredentialsError").

(** A Converse answer whose first content block carries no text. *)
Definition bedrock_no_text : string -> string -> string -> result json :=
  fun _ _ _ =>
    Return (JObject [("output",
              JObject [("message",
                JObject [("role", JString "assistant");
                         ("content", JArray [JObject [("toolUse", JObject [])]])])])]).

(** The request of the sample deployment, step by step. *)
Definition request : json :=
  JString (dq "{'bucket':'claims-images-bucket','key':'uploads/12345-vehicle_damage.jpg'}").

Definition payload : json :=
  JObject [ ("bucket", JString "claims-images-bucket");
            ("key", JString "uploads/12345-vehicle_damage.jpg") ].

Definition bucket : json := JString "claims-images-bucket".

Definition key : json := JString "uploads/12345-vehicle_damage.jpg".

(** The two calls every run of the sample deployment makes before it
    looks at the answer. *)
Definition calls : list effect :=
  [ GetObject bucket key;
    Converse AnalyzeImage.model_id "<image bytes>" AnalyzeImage.prompt ].

(** The parts of the answer [bedrock_no_text] gives. *)
Definition no_text_blocks : list json := [JObject [("toolUse", JObject [])]].

Definition no_text_message : json :=
  JObject [("role", JString "assistant"); ("content", JArray no_text_blocks)].

Definition no_text_output : json := JObject [("message", no_text_message)].

Definition no_text_reply : json := JObject [("output", no_text_output)].

(** Presign requests with a field missing or of the wrong type. *)
Definition presign_without_name : json :=
  JObject [("body", JString (dq "{'fileType': 'application/pdf'}"))].

Definition presign_null_type : json :=
  JObject [("body", JString (dq "{'fileName': 'a.png', 'fileType': null}"))].

End Outage.

(** ** Answers that are not a JSON object *)

Module Shape.
Import Json.

(** The characters a JSON value can begin with: a quote, a brace, a
    bracket, the first letter of [null], [true], [false], [NaN] or
    [Infinity], a minus sign, a digit. *)
Definition can_start_value (c : ascii) : bool :=
  ((c =? dquote) || (c =? "{") || (c =? "[") || (c =? "n") || (c =? "t")
   || (c =? "f") || (c =? "N") || (c =? "I") || (c =? "-"))%char
  || is_digit c.

(** The first character after leading whitespace can begin a value. *)
Definition starts_value (raw : string) : bool :=
  match skip_whitespace raw with
  | EmptyString => false
  | String c _ => can_start_value c
  end.

(** The text parses to a value with a [verdict] and a [confidence]. *)
Definition gives_fields (raw : string) : bool :=
  match Py.loads raw with
  | Py.Return a =>
      match Py.getitem a "verdict", Py.getitem a "confidence" with
      | Py.Return _, Py.Return _ => true
      | _, _ => false
      end
  | Py.Raise _ => false
  end.

Definition is_string (v : json) : bool :=
  match v with
  | JString _ => true
  | _ => false
  end.

(** A bare number. *)
Definition number_answer : string := "42".

(** A record wrapped in a list. *)
Definition list_answer : string :=
  dq "[{'verdict':'AI_GENERATED','confidence':0.92,'hints':[]}]".

(** A record inside a Markdown code fence. *)
Definition fenced_answer : string :=
  "```json" ++ nl
  ++ dq "{'verdict':'AI_GENERATED','confidence':0.92,'hints':[]}" ++ nl
  ++ "```".

End Shape.

(** * Properties *)

(** ** The scanner returns suffixes and never runs out of fuel *)

Module JsonFacts.
Import Json.
Local Open Scope nat_scope.

Lemma skip_whitespace_length (s : string) :
  String.length (skip_whitespace s) <= String.length s.
Proof.
  induction s as [|c s IH]; simpl; [lia|].
  destruct (is_whitespace c); simpl; lia.
Qed.

Lemma prepend_some (p : string) (x : option (string * string)) (a r : string) :
  prepend p x = Some (a, r) -> exists a', x = Some (a', r).
Proof.
  destruct x as [[a' r']|]; simpl; [|discriminate].
  intros H; injection H as _ <-. now exists a'.
Qed.

(** The closing quote is consumed, so the rest is strictly shorter. *)
Lemma scanstring_shorter (n : nat) :
  forall s a r, String.length s <= n -> scanstring s = Some (a, r) ->
                String.length r < String.length s.
Proof.
  induction n as [|n IH]; intros s a r Hn H.
  - destruct s; [discriminate | simpl in Hn; lia].
  - destruct s as [|c rest]; [discriminate|].
    cbn [scanstring] in H. simpl in Hn. cbn [String.length].
    assert (step : forall p t, String.length t <= String.length rest ->
                               prepend p (scanstring t) = Some (a, r) ->
                               String.length r < S (String.length rest)).
    { intros p t Ht Hp. apply prepend_some in Hp as [a' Hp].
      apply IH in Hp; lia. }
    destruct (c =? dquote)%char; [injection H as _ <-; lia|].
    destruct (c =? backslash)%char.
    + destruct rest as [|e rest1]; [discriminate|].
      destruct (e =? "u")%char.
      * destruct rest1 as [|h1 [|h2 [|h3 [|h4 rest2]]]]; try discriminate.
        destruct (hex4 h1 h2 h3 h4) as [uni|]; [|discriminate].
        destruct ((55296 <=? uni)%Z && (uni <=? 56319)%Z);
          [|apply step in H; cbn [String.length] in *; lia].
        destruct rest2 as [|b [|u rest3]];
          try (apply step in H; cbn [String.length] in *; lia).
        destruct ((b =? backslash) && (u =? "u"))%char;
          [|apply step in H; cbn [String.length] in *; lia].
        destruct rest3 as [|g1 [|g2 [|g3 [|g4 rest4]]]]; try discriminate.
        destruct (hex4 g1 g2 g3 g4) as [uni2|]; [|discriminate].
        destruct ((56320 <=? uni2)%Z && (uni2 <=? 57343)%Z);
          apply step in H; cbn [String.length] in *; lia.
      * destruct (escape_char e); [|discriminate].
        apply step in H; cbn [String.length] in *; lia.
    + destruct (code c <? 32)%Z; [discriminate|].
      apply step in H; lia.
Qed.

Lemma span_digits_length (s : string) :
  String.length (snd (span_digits s)) <= String.length s.
Proof.
  induction s as [|c s IH]; simpl; [lia|].
  destruct (is_digit c); [|simpl; lia].
  destruct (span_digits s); simpl in *; lia.
Qed.

Lemma strip_prefix_char_length (c : ascii) (s r : string) :
  strip_prefix_char c s = Some r -> String.length s = S (String.length r).
Proof.
  destruct s as [|c' s]; simpl; [discriminate|].
  destruct (c =? c')%char; [|discriminate].
  now intros [= ->].
Qed.

Lemma strip_prefix_length (p : string) :
  forall s r, strip_prefix p s = Some r -> String.length r <= String.length s.
Proof.
  induction p as [|c p IH]; simpl; intros s r H.
  - injection H as ->. lia.
  - destruct (strip_prefix_char c s) as [s'|] eqn:E; [|discriminate].
    apply strip_prefix_char_length in E. apply IH in H. lia.
Qed.

Lemma literal_length (p : string) (v w : json) (s r : string) :
  literal p v s = Some (w, r) -> String.length r <= String.length s.
Proof.
  unfold literal. destruct (strip_prefix p s) eqn:E; [|discriminate].
  intros [= _ <-]. now apply strip_prefix_length in E.
Qed.

Lemma span_digits_rest (s d r : string) :
  span_digits s = (d, r) -> String.length r <= String.length s.
Proof.
  intros H. pose proof (span_digits_length s) as L. now rewrite H in L.
Qed.

Lemma match_integer_length (s i r : string) :
  match_integer s = Some (i, r) -> String.length r <= String.length s.
Proof.
  unfold match_integer. destruct s as [|c s]; [discriminate|].
  destruct (c =? "0")%char.
  - intros [= _ <-]. simpl; lia.
  - destruct (is_digit c); [|discriminate].
    intros H. apply (span_digits_rest _ i). congruence.
Qed.

Lemma match_frac_length (s f r : string) :
  match_frac s = Some (f, r) -> String.length r <= String.length s.
Proof.
  unfold match_frac.
  destruct (strip_prefix_char "." s) as [s'|] eqn:E; [|discriminate].
  apply strip_prefix_char_length in E.
  destruct (span_digits s') as [d r'] eqn:D. apply span_digits_rest in D.
  destruct d; [discriminate|]. intros [= _ <-]. lia.
Qed.

Lemma match_exp_length (s : string) (e : Z) (r : string) :
  match_exp s = Some (e, r) -> String.length r <= String.length s.
Proof.
  unfold match_exp. destruct s as [|c s]; [discriminate|].
  destruct ((c =? "e") || (c =? "E"))%char; [|discriminate].
  set (p := match s with
            | String c' t =>
                if (c' =? "-")%char then (-1, t)%Z
                else if (c' =? "+")%char then (1, t)%Z else (1, s)%Z
            | EmptyString => (1, s)%Z
            end).
  assert (Hp : String.length (snd p) <= String.length s).
  { subst p. destruct s as [|c' t]; simpl; [lia|].
    destruct (c' =? "-")%char; [simpl; lia|].
    destruct (c' =? "+")%char; simpl; lia. }
  destruct p as [sign s'']. simpl in Hp.
  destruct (span_digits s'') as [d r'] eqn:D. apply span_digits_rest in D.
  destruct d; [discriminate|]. intros [= _ <-]. simpl; lia.
Qed.

Lemma match_number_length (s : string) (v : json) (r : string) :
  match_number s = Some (v, r) -> String.length r <= String.length s.
Proof.
  unfold match_number.
  set (p := match strip_prefix_char "-" s with
            | Some t => (true, t)
            | None => (false, s)
            end).
  assert (Hp : String.length (snd p) <= String.length s).
  { subst p. destruct (strip_prefix_char "-" s) eqn:E; simpl; [|lia].
    apply strip_prefix_char_length in E. lia. }
  destruct p as [negative s1]. simpl in Hp.
  destruct (match_integer s1) as [[int s2]|] eqn:I; [|discriminate].
  apply match_integer_length in I.
  destruct (match_frac s2) as [[f s3]|] eqn:F;
    [apply match_frac_length in F|];
    (destruct (match_exp _) as [[e s4]|] eqn:X;
     [apply match_exp_length in X|]);
    intros [= _ <-]; lia.
Qed.

Lemma scan_atom_length (s : string) (v : json) (r : string) :
  scan_atom s = Scan v r -> String.length r <= String.length s.
Proof.
  unfold scan_atom. cbn [fold_right].
  repeat match goal with
         | |- context [literal ?p ?w s] =>
             destruct (literal p w s) as [[? ?]|] eqn:?;
             [intros [= <- <-]; eapply literal_length; eassumption|]
         | |- context [match_number s] =>
             destruct (match_number s) as [[? ?]|] eqn:?;
             [intros [= <- <-]; eapply match_number_length; eassumption|]
         end.
  discriminate.
Qed.

Lemma scan_atom_not_exhausted (s : string) : scan_atom s <> Exhausted.
Proof.
  unfold scan_atom.
  match goal with |- context [match ?x with _ => _ end] => destruct x as [[? ?]|] end;
    discriminate.
Qed.

Lemma scan_map_scan {A B : Type} (f : A -> B) (x : scanned A) (b : B) (r : string) :
  scan_map f x = Scan b r -> exists a, x = Scan a r.
Proof.
  destruct x; simpl; try discriminate. intros [= _ <-]. now eexists.
Qed.

Lemma scan_map_exhausted {A B : Type} (f : A -> B) (x : scanned A) :
  scan_map f x = Exhausted -> x = Exhausted.
Proof. now destruct x. Qed.

(** Scanning returns a suffix: what is left is never longer than what
    was given. *)
Lemma scan_length (fuel : nat) :
  (forall s v r, scan_once fuel s = Scan v r ->
                 String.length r <= String.length s) /\
  (forall s v r, scan_elements fuel s = Scan v r ->
                 String.length r <= String.length s) /\
  (forall s v r, scan_members fuel s = Scan v r ->
                 String.length r <= String.length s).
Proof.
  induction fuel as [|fuel (IHo & IHe & IHm)];
    [repeat split; intros; discriminate|].
  repeat split; intros s v r H.
  - cbn [scan_once] in H. destruct s as [|c rest]; [discriminate|].
    destruct (c =? dquote)%char.
    { destruct (scanstring rest) as [[str r']|] eqn:E; [|discriminate].
      injection H as _ <-.
      apply (scanstring_shorter (String.length rest)) in E; simpl; lia. }
    destruct (c =? "{")%char.
    { pose proof (skip_whitespace_length rest) as W.
      destruct (skip_whitespace rest) as [|c' r']; [discriminate|].
      simpl in W.
      destruct (c' =? "}")%char; [injection H as _ <-; simpl; lia|].
      destruct (c' =? dquote)%char; [|discriminate].
      apply scan_map_scan in H as [a H]. apply IHm in H. simpl; lia. }
    destruct (c =? "[")%char.
    { pose proof (skip_whitespace_length rest) as W.
      destruct (skip_whitespace rest) as [|c' r']; [discriminate|].
      destruct (c' =? "]")%char; [injection H as _ <-; simpl in *; lia|].
      apply scan_map_scan in H as [a H]. apply IHe in H. simpl in *; lia. }
    now apply scan_atom_length in H.
  - cbn [scan_elements] in H.
    destruct (scan_once fuel s) as [x r0| |] eqn:E; try discriminate.
    apply IHo in E.
    pose proof (skip_whitespace_length r0) as W.
    destruct (skip_whitespace r0) as [|c r']; [discriminate|]. simpl in W.
    destruct (c =? "]")%char; [injection H as _ <-; lia|].
    destruct (c =? ",")%char; [|discriminate].
    apply scan_map_scan in H as [a H]. apply IHe in H.
    pose proof (skip_whitespace_length r'). lia.
  - cbn [scan_members] in H.
    destruct (scanstring s) as [[k r0]|] eqn:E; [|discriminate].
    apply (scanstring_shorter (String.length s)) in E; [|lia].
    pose proof (skip_whitespace_length r0) as W0.
    destruct (strip_prefix_char ":" (skip_whitespace r0)) as [r1|] eqn:C;
      [|discriminate].
    apply strip_prefix_char_length in C.
    pose proof (skip_whitespace_length r1) as W1.
    destruct (scan_once fuel (skip_whitespace r1)) as [x r2| |] eqn:V;
      try discriminate.
    apply IHo in V.
    pose proof (skip_whitespace_length r2) as W2.
    destruct (skip_whitespace r2) as [|c r3]; [discriminate|]. simpl in W2.
    destruct (c =? "}")%char; [injection H as _ <-; lia|].
    destruct (c =? ",")%char; [|discriminate].
    pose proof (skip_whitespace_length r3) as W3.
    destruct (strip_prefix_char dquote (skip_whitespace r3)) as [r4|] eqn:Q;
      [|discriminate].
    apply strip_prefix_char_length in Q.
    apply scan_map_scan in H as [a H]. apply IHm in H. lia.
Qed.

(** With two units of fuel per character the scanner never gives up. *)
Lemma scan_fuel (fuel : nat) :
  (forall s, 2 * String.length s + 1 <= fuel -> scan_once fuel s <> Exhausted) /\
  (forall s, 2 * String.length s + 2 <= fuel -> scan_elements fuel s <> Exhausted) /\
  (forall s, 2 * String.length s + 1 <= fuel -> scan_members fuel s <> Exhausted).
Proof.
  induction fuel as [|fuel (IHo & IHe & IHm)];
    [repeat split; intros; lia|].
  destruct (scan_length fuel) as (Lo & _ & _).
  repeat split; intros s Hf H.
  - cbn [scan_once] in H. destruct s as [|c rest]; [discriminate|].
    simpl in Hf.
    destruct (c =? dquote)%char.
    { destruct (scanstring rest) as [[? ?]|]; discriminate. }
    destruct (c =? "{")%char.
    { pose proof (skip_whitespace_length rest) as W.
      destruct (skip_whitespace rest) as [|c' r']; [discriminate|].
      simpl in W.
      destruct (c' =? "}")%char; [discriminate|].
      destruct (c' =? dquote)%char; [|discriminate].
      apply scan_map_exhausted in H. revert H. apply IHm. lia. }
    destruct (c =? "[")%char.
    { pose proof (skip_whitespace_length rest) as W.
      destruct (skip_whitespace rest) as [|c' r']; [discriminate|].
      destruct (c' =? "]")%char; [discriminate|].
      apply scan_map_exhausted in H. revert H. apply IHe. simpl in *; lia. }
    now apply scan_atom_not_exhausted in H.
  - cbn [scan_elements] in H.
    destruct (scan_once fuel s) as [x r0| |] eqn:E; try discriminate.
    + apply Lo in E.
      pose proof (skip_whitespace_length r0) as W.
      destruct (skip_whitespace r0) as [|c r']; [discriminate|]. simpl in W.
      destruct (c =? "]")%char; [discriminate|].
      destruct (c =? ",")%char; [|discriminate].
      apply scan_map_exhausted in H. revert H. apply IHe.
      pose proof (skip_whitespace_length r'). lia.
    + revert E. apply IHo. lia.
  - cbn [scan_members] in H.
    destruct (scanstring s) as [[k r0]|] eqn:E; [|discriminate].
    apply (scanstring_shorter (String.length s)) in E; [|lia].
    pose proof (skip_whitespace_length r0) as W0.
    destruct (strip_prefix_char ":" (skip_whitespace r0)) as [r1|] eqn:C;
      [|discriminate].
    apply strip_prefix_char_length in C.
    pose proof (skip_whitespace_length r1) as W1.
    destruct (scan_once fuel (skip_whitespace r1)) as [x r2| |] eqn:V;
      try discriminate.
    + apply Lo in V.
      pose proof (skip_whitespace_length r2) as W2.
      destruct (skip_whitespace r2) as [|c r3]; [discriminate|]. simpl in W2.
      destruct (c =? "}")%char; [discriminate|].
      destruct (c =? ",")%char; [|discriminate].
      pose proof (skip_whitespace_length r3) as W3.
      destruct (strip_prefix_char dquote (skip_whitespace r3)) as [r4|] eqn:Q;
        [|discriminate].
      apply strip_prefix_char_length in Q.
      apply scan_map_exhausted in H. revert H. apply IHm. lia.
    + revert V. apply IHo. lia.
Qed.

End JsonFacts.

Module PyFacts.
Import Json Py JsonFacts.

(** [loads] never fails for lack of fuel. *)
Lemma loads_never_exhausted (s : string) : loads s <> Raise RecursionError.
Proof.
  unfold loads.
  destruct (scan_once _ _) as [v r| |] eqn:E.
  - destruct (skip_whitespace r); discriminate.
  - discriminate.
  - exfalso. revert E. apply (scan_fuel _).
    pose proof (skip_whitespace_length s). lia.
Qed.

End PyFacts.

(** ** Substrings *)

Module TextFacts.
Import Text.

Lemma prefixes_self (s : string) : In s (prefixes s).
Proof.
  induction s as [|c s IH]; simpl; [now left|].
  right. now apply in_map.
Qed.

Lemma suffixes_self (s : string) : In s (suffixes s).
Proof. destruct s; simpl; now left. Qed.

Lemma substrings_self (s : string) : In s (substrings s).
Proof.
  unfold substrings. apply in_flat_map. exists s.
  split; [apply suffixes_self | apply prefixes_self].
Qed.

End TextFacts.

(** ** analyzeImage: what the handler returns *)

Module AnalyzeImageFacts.
Import Json Py Aws AnalyzeImage PyFacts.

Lemma bind_outcome {A B : Type} (m : M A) (k : A -> M B) :
  outcome (bind m k) =
  match outcome m with
  | Return a => outcome (k a)
  | Raise e => Raise e
  end.
Proof.
  destruct m as [t [a|e]]; simpl; [|reflexivity].
  now destruct (k a).
Qed.

Section Facts.

Variable s3_get_object : json -> json -> result string.
Variable bedrock_converse : string -> string -> string -> result json.
Variable cloudwatch_put_metric_data : string -> list MetricDatum -> result unit.
Variable now : nat -> Q.

Local Notation call_model := (call_model s3_get_object bedrock_converse).
Local Notation parse_response := (parse_response cloudwatch_put_metric_data now).
Local Notation lambda_handler :=
  (lambda_handler s3_get_object bedrock_converse cloudwatch_put_metric_data now).
Local Notation metric_data := (metric_data now).

Local Notation expected := (expected cloudwatch_put_metric_data now).

Lemma parse_response_outcome (ctx : context) (bucket key : json) (raw : string) :
  outcome (parse_response ctx bucket key (JString raw)) = expected raw.
Proof.
  unfold AnalyzeImage.parse_response, AnalyzeImage.expected.
  rewrite bind_outcome. cbn [lift outcome snd json_loads].
  destruct (loads raw) as [analysis|e]; [|reflexivity].
  rewrite bind_outcome. cbn [lift outcome snd].
  destruct (getitem analysis "verdict") as [verdict|e]; [|reflexivity].
  rewrite bind_outcome. cbn [lift outcome snd].
  destruct (getitem analysis "confidence") as [confidence|e]; [|reflexivity].
  rewrite bind_outcome. cbn [call outcome snd].
  rewrite bind_outcome. cbn [call outcome snd].
  now destruct (cloudwatch_put_metric_data _ _).
Qed.

Lemma lambda_handler_outcome (event : json) (ctx : context)
      (bucket key : json) (raw : string) :
  outcome (call_model event) = Return (bucket, key, JString raw) ->
  outcome (lambda_handler event ctx) = expected raw.
Proof.
  intros H. unfold AnalyzeImage.lambda_handler.
  rewrite bind_outcome, H. apply parse_response_outcome.
Qed.


Lemma expected_return (raw : string) (r : response) :
  expected raw = Return r ->
  exists d v c,
    loads raw = Return (JObject d) /\ r = {| statusCode := 200; body := JObject d |} /\
    dict_get "verdict" d = Some v /\ dict_get "confidence" d = Some c /\
    cloudwatch_put_metric_data namespace (metric_data v c) = Return tt.
Proof.
  unfold AnalyzeImage.expected.
  destruct (loads raw) as [analysis|e]; [|discriminate].
  destruct analysis as [| | | | | | |l|d]; try discriminate.
  cbn [getitem].
  destruct (dict_get "verdict" d) as [v|] eqn:Hv; [|discriminate].
  destruct (dict_get "confidence" d) as [c|] eqn:Hc; [|discriminate].
  destruct (cloudwatch_put_metric_data _ _) as [[]|e] eqn:E; [|discriminate].
  intros [= <-]. exists d, v, c. repeat split; auto.
Qed.

(** C1, as amended.  Whenever the handler produces a record, that
    record is the JSON object parsed from the model's raw text,
    returned unchanged with status 200; it has a [verdict] and a
    [confidence] field, and it meets the Verdict contract exactly when
    the model's own object does. *)
Theorem C1_record_is_model_output
        (event : json) (ctx : context) (bucket key : json) (raw : string)
        (r : response) :
  outcome (call_model event) = Return (bucket, key, JString raw) ->
  outcome (lambda_handler event ctx) = Return r ->
  statusCode r = 200 /\
  loads raw = Return (body r) /\
  (exists d v c, body r = JObject d /\
                 dict_get "verdict" d = Some v /\
                 dict_get "confidence" d = Some c) /\
  (forall a, loads raw = Return a ->
             Contract.conforms (body r) = Contract.conforms a).
Proof.
  intros Hm Hr. rewrite (lambda_handler_outcome _ _ _ _ _ Hm) in Hr.
  apply expected_return in Hr as (d & v & c & Hl & -> & Hv & Hc & _).
  cbn [statusCode body]. repeat split; auto.
  - exists d, v, c. repeat split; auto.
  - intros a Ha. congruence.
Qed.

(** C2, as amended.  When no part of the raw text is a JSON object,
    the handler returns no record and no answer of any kind: the run
    ends in the exception [json.loads] raised, passed on as it is, or,
    when the text is a JSON value other than an object, in the
    [TypeError] of the first field access.  The handler catches
    nothing and has no error of its own to turn the failure into. *)
Theorem C2_no_object_no_record
        (event : json) (ctx : context) (bucket key : json) (raw : string) :
  outcome (call_model event) = Return (bucket, key, JString raw) ->
  Text.embedded_object raw = false ->
  (forall r, outcome (lambda_handler event ctx) <> Return r) /\
  match loads raw with
  | Raise e => outcome (lambda_handler event ctx) = Raise e
  | Return _ => outcome (lambda_handler event ctx) = Raise TypeError
  end.
Proof.
  intros Hm Hn. rewrite (lambda_handler_outcome _ _ _ _ _ Hm).
  assert (Ho : Text.is_object_text raw = false).
  { unfold Text.embedded_object in Hn.
    destruct (Text.is_object_text raw) eqn:E; [|reflexivity].
    rewrite <- Hn. symmetry. apply existsb_exists. exists raw. split; [|exact E].
    apply TextFacts.substrings_self. }
  unfold Text.is_object_text in Ho. unfold AnalyzeImage.expected.
  destruct (loads raw) as [analysis|e] eqn:L.
  - destruct analysis; try discriminate; cbn [getitem]; split; congruence.
  - split; congruence.
Qed.

(** C3, as amended.  A raw text that [json.loads] accepts as a whole
    as an object with [verdict] and [confidence] is returned as the
    record, provided CloudWatch takes the metrics. *)
Theorem C3_whole_text_object_succeeds
        (event : json) (ctx : context) (bucket key : json) (raw : string)
        (d : list (string * json)) (v c : json) :
  outcome (call_model event) = Return (bucket, key, JString raw) ->
  loads raw = Return (JObject d) ->
  dict_get "verdict" d = Some v ->
  dict_get "confidence" d = Some c ->
  cloudwatch_put_metric_data namespace (metric_data v c) = Return tt ->
  outcome (lambda_handler event ctx) =
  Return {| statusCode := 200; body := JObject d |}.
Proof.
  intros Hm Hl Hv Hc Hw. rewrite (lambda_handler_outcome _ _ _ _ _ Hm).
  unfold AnalyzeImage.expected. rewrite Hl. cbn [getitem].
  now rewrite Hv, Hc, Hw.
Qed.

(** C4, as amended.  For a parseable object: without a [verdict] the
    handler raises [KeyError('verdict')]; with one, every record it
    produces carries that value unchanged. *)
Theorem C4_verdict_required_and_kept
        (event : json) (ctx : context) (bucket key : json) (raw : string)
        (d : list (string * json)) :
  outcome (call_model event) = Return (bucket, key, JString raw) ->
  loads raw = Return (JObject d) ->
  match dict_get "verdict" d with
  | None => outcome (lambda_handler event ctx) = Raise (KeyError (JString "verdict"))
  | Some v => forall r, outcome (lambda_handler event ctx) = Return r ->
                        getitem (body r) "verdict" = Return v
  end.
Proof.
  intros Hm Hl. rewrite (lambda_handler_outcome _ _ _ _ _ Hm).
  destruct (dict_get "verdict" d) as [v|] eqn:Hv.
  - intros r Hr.
    apply expected_return in Hr as (d' & v' & c' & Hl' & -> & Hv' & _).
    assert (d' = d) as -> by congruence.
    cbn [body getitem]. now rewrite Hv.
  - unfold AnalyzeImage.expected. rewrite Hl. cbn [getitem]. now rewrite Hv.
Qed.

(** C5, as amended.  For a parseable object that has a [verdict]:
    without a [confidence] the handler raises [KeyError('confidence')];
    with one, every record it produces carries that value unchanged,
    in range or not, numeric or not. *)
Theorem C5_confidence_required_and_kept
        (event : json) (ctx : context) (bucket key : json) (raw : string)
        (d : list (string * json)) (v : json) :
  outcome (call_model event) = Return (bucket, key, JString raw) ->
  loads raw = Return (JObject d) ->
  dict_get "verdict" d = Some v ->
  match dict_get "confidence" d with
  | None => outcome (lambda_handler event ctx) = Raise (KeyError (JString "confidence"))
  | Some c => forall r, outcome (lambda_handler event ctx) = Return r ->
                        getitem (body r) "confidence" = Return c
  end.
Proof.
  intros Hm Hl Hv. rewrite (lambda_handler_outcome _ _ _ _ _ Hm).
  destruct (dict_get "confidence" d) as [c|] eqn:Hc.
  - intros r Hr.
    apply expected_return in Hr as (d' & v' & c' & Hl' & -> & _).
    assert (d' = d) as -> by congruence.
    cbn [body getitem]. now rewrite Hc.
  - unfold AnalyzeImage.expected. rewrite Hl. cbn [getitem]. now rewrite Hv, Hc.
Qed.

(** C6, as amended.  Every record the handler produces has exactly the
    [hints] entry of the parsed object: the same value when present,
    none when absent. *)
Theorem C6_hints_passed_through
        (event : json) (ctx : context) (bucket key : json) (raw : string)
        (d : list (string * json)) (r : response) :
  outcome (call_model event) = Return (bucket, key, JString raw) ->
  loads raw = Return (JObject d) ->
  outcome (lambda_handler event ctx) = Return r ->
  exists d', body r = JObject d' /\ dict_get "hints" d' = dict_get "hints" d.
Proof.
  intros Hm Hl Hr. rewrite (lambda_handler_outcome _ _ _ _ _ Hm) in Hr.
  apply expected_return in Hr as (d' & v' & c' & Hl' & -> & _).
  exists d'. split; [reflexivity|]. congruence.
Qed.

End Facts.


(** C8.  Two invocations whose model answers are the same text end the
    same way (the same record, or the same exception) whatever the
    request, the context and the clock were, given that CloudWatch
    takes the metrics in both. *)
Theorem C8_same_text_same_outcome
        (s3 s3' : json -> json -> result string)
        (bedrock bedrock' : string -> string -> string -> result json)
        (cloudwatch cloudwatch' : string -> list MetricDatum -> result unit)
        (now now' : nat -> Q)
        (event event' : json) (ctx ctx' : context)
        (bucket key bucket' key' : json) (raw : string) :
  outcome (call_model s3 bedrock event) = Return (bucket, key, JString raw) ->
  outcome (call_model s3' bedrock' event') = Return (bucket', key', JString raw) ->
  (forall ns data, cloudwatch ns data = Return tt) ->
  (forall ns data, cloudwatch' ns data = Return tt) ->
  outcome (lambda_handler s3 bedrock cloudwatch now event ctx) =
  outcome (lambda_handler s3' bedrock' cloudwatch' now' event' ctx').
Proof.
  intros H H' W W'.
  rewrite (lambda_handler_outcome _ _ _ _ _ _ _ _ _ H).
  rewrite (lambda_handler_outcome _ _ _ _ _ _ _ _ _ H').
  unfold expected.
  destruct (loads raw) as [analysis|e]; [|reflexivity].
  destruct (getitem analysis "verdict") as [v|e]; [|reflexivity].
  destruct (getitem analysis "confidence") as [c|e]; [|reflexivity].
  now rewrite W, W'.
Qed.

(** *** The examples of the specification, run on the sample deployment *)

Ltac run_sample := vm_compute; reflexivity.

Lemma C1_witness :
  statusCode (Sample.ok Sample.embedded_record) = 200 /\
  loads Sample.embedded_answer = Return Sample.embedded_record /\
  (exists d v c, Sample.embedded_record = JObject d /\
                 dict_get "verdict" d = Some v /\
                 dict_get "confidence" d = Some c) /\
  (forall a, loads Sample.embedded_answer = Return a ->
             Contract.conforms Sample.embedded_record = Contract.conforms a).
Proof.
  apply (C1_record_is_model_output
           Sample.s3_get_object (Sample.bedrock_converse Sample.embedded_answer)
           Sample.cloudwatch_put_metric_data Sample.now
           Sample.analyze_event Sample.ctx
           (JString "claims-images-bucket")
           (JString "uploads/12345-vehicle_damage.jpg")
           Sample.embedded_answer
           (Sample.ok Sample.embedded_record)); run_sample.
Defined.

(** The claim of C1 fails: a record is produced whose verdict is outside
    the enumeration, whose confidence is above 1 and whose hints are
    eight entries, one blank and one not a string. *)
Lemma C1_counterexample :
  outcome (Sample.analyze Sample.out_of_contract_answer) =
  Return (Sample.ok Sample.out_of_contract_record) /\
  Contract.conforms (body (Sample.ok Sample.out_of_contract_record)) = false.
Proof. split; run_sample. Qed.

Lemma C2_witness :
  Text.embedded_object Sample.refusal = false /\
  (forall r, outcome (Sample.analyze Sample.refusal) <> Return r) /\
  outcome (Sample.analyze Sample.refusal) = Raise JSONDecodeError.
Proof.
  split; [run_sample|].
  apply (C2_no_object_no_record
           Sample.s3_get_object (Sample.bedrock_converse Sample.refusal)
           Sample.cloudwatch_put_metric_data Sample.now
           Sample.analyze_event Sample.ctx
           (JString "claims-images-bucket")
           (JString "uploads/12345-vehicle_damage.jpg")
           Sample.refusal); run_sample.
Defined.

(** The claim of C2 fails: the refusal and a bare number both hold no
    JSON object, and the handler reports neither as an error of its
    own.  The first run ends in the very [JSONDecodeError] that
    [json.loads] raised, the second in a [TypeError], so the two
    failures are not even of one kind; both leave the handler after the
    fetch and the inference with nothing logged. *)
Lemma C2_counterexample :
  Text.embedded_object Sample.refusal = false /\
  Text.embedded_object Shape.number_answer = false /\
  loads Sample.refusal = Raise JSONDecodeError /\
  Sample.analyze Sample.refusal = (Outage.calls, Raise JSONDecodeError) /\
  Sample.analyze Shape.number_answer = (Outage.calls, Raise TypeError) /\
  outcome (Sample.analyze Sample.refusal) <>
  outcome (Sample.analyze Shape.number_answer).
Proof.
  repeat split; try run_sample. vm_compute. discriminate.
Qed.

(** The claim of C3 fails: the text holds a JSON object, and the handler
    raises instead of finding it. *)
Lemma C3_counterexample :
  Text.embedded_object Sample.prose_answer = true /\
  outcome (Sample.analyze Sample.prose_answer) = Raise JSONDecodeError.
Proof. split; run_sample. Qed.

Lemma C3_witness :
  outcome (Sample.analyze Sample.embedded_answer) =
  Return (Sample.ok Sample.embedded_record).
Proof.
  apply (C3_whole_text_object_succeeds
           Sample.s3_get_object (Sample.bedrock_converse Sample.embedded_answer)
           Sample.cloudwatch_put_metric_data Sample.now
           Sample.analyze_event Sample.ctx
           (JString "claims-images-bucket")
           (JString "uploads/12345-vehicle_damage.jpg")
           Sample.embedded_answer _
           (JString "AI_GENERATED") (JFloat (Qred 0.92))); run_sample.
Defined.

(** The claim of C4 fails: the record without a verdict is not
    defaulted, and a verdict in the wrong case is not replaced. *)
Lemma C4_counterexample :
  outcome (Sample.analyze Sample.defaulting_answer) =
  Raise (KeyError (JString "verdict")) /\
  outcome (Sample.analyze Sample.lowercase_answer) =
  Return (Sample.ok (JObject [ ("verdict", JString "ai_generated");
                               ("confidence", JFloat (Qred 0.5));
                               ("hints", JArray []) ])).
Proof. split; run_sample. Qed.

Lemma C4_witness :
  outcome (Sample.analyze Sample.defaulting_answer) =
  Raise (KeyError (JString "verdict")).
Proof.
  apply (C4_verdict_required_and_kept
           Sample.s3_get_object (Sample.bedrock_converse Sample.defaulting_answer)
           Sample.cloudwatch_put_metric_data Sample.now
           Sample.analyze_event Sample.ctx
           (JString "claims-images-bucket")
           (JString "uploads/12345-vehicle_damage.jpg")
           Sample.defaulting_answer [("confidence", JFloat 1.7)]); run_sample.
Defined.

(** The claim of C5 fails: the confidence below 0 comes back as it is. *)
Lemma C5_counterexample :
  outcome (Sample.analyze Sample.clamping_answer) =
  Return (Sample.ok Sample.clamping_record) /\
  getitem (body (Sample.ok Sample.clamping_record)) "confidence" =
  Return (JFloat (-0.3)) /\
  Contract.valid_confidence (JFloat (-0.3)) = false.
Proof. repeat split; run_sample. Qed.

Lemma C5_witness :
  getitem (body (Sample.ok Sample.clamping_record)) "confidence" =
  Return (JFloat (-0.3)).
Proof.
  refine (C5_confidence_required_and_kept
           Sample.s3_get_object (Sample.bedrock_converse Sample.clamping_answer)
           Sample.cloudwatch_put_metric_data Sample.now
           Sample.analyze_event Sample.ctx
           (JString "claims-images-bucket")
           (JString "uploads/12345-vehicle_damage.jpg")
           Sample.clamping_answer
           [ ("verdict", JString "LIKELY_REAL"); ("confidence", JFloat (-0.3));
             ("hints", JArray [JString "a"]) ]
           (JString "LIKELY_REAL") _ _ _ (Sample.ok Sample.clamping_record) _);
    run_sample.
Defined.

(** The claim of C6 fails: ten hints go in and ten come out. *)
Lemma C6_counterexample :
  outcome (Sample.analyze Sample.ten_hints_answer) =
  Return (Sample.ok Sample.ten_hints_record) /\
  getitem Sample.ten_hints_record "hints" = Return (JArray Sample.ten_hints) /\
  List.length Sample.ten_hints = 10%nat /\
  Contract.valid_hints (JArray Sample.ten_hints) = false.
Proof. repeat split; run_sample. Qed.

Lemma C6_witness :
  exists d',
    body (Sample.ok Sample.ten_hints_record) = JObject d' /\
    dict_get "hints" d' = Some (JArray Sample.ten_hints).
Proof.
  apply (C6_hints_passed_through
           Sample.s3_get_object (Sample.bedrock_converse Sample.ten_hints_answer)
           Sample.cloudwatch_put_metric_data Sample.now
           Sample.analyze_event Sample.ctx
           (JString "claims-images-bucket")
           (JString "uploads/12345-vehicle_damage.jpg")
           Sample.ten_hints_answer
           [ ("verdict", JString "AI_GENERATED");
             ("confidence", JFloat (Qred 0.5));
             ("hints", JArray Sample.ten_hints) ]
           (Sample.ok Sample.ten_hints_record));
    run_sample.
Defined.

Lemma C8_witness :
  outcome (Sample.analyze Sample.embedded_answer) =
  outcome (lambda_handler Sample.s3_get_object
             (Sample.bedrock_converse Sample.embedded_answer)
             Sample.cloudwatch_put_metric_data Sample.now'
             Sample.analyze_event' Sample.ctx').
Proof.
  apply (C8_same_text_same_outcome
           Sample.s3_get_object Sample.s3_get_object
           (Sample.bedrock_converse Sample.embedded_answer)
           (Sample.bedrock_converse Sample.embedded_answer)
           Sample.cloudwatch_put_metric_data Sample.cloudwatch_put_metric_data
           Sample.now Sample.now' Sample.analyze_event Sample.analyze_event'
           Sample.ctx Sample.ctx'
           (JString "claims-images-bucket")
           (JString "uploads/12345-vehicle_damage.jpg")
           (JString "b") (JString "uploads/k.png")
           Sample.embedded_answer);
    try run_sample; intros; reflexivity.
Defined.

End AnalyzeImageFacts.

(** ** generatePresignedUrl: the content-type gate *)

Module GeneratePresignedUrlFacts.
Import Json Py Aws GeneratePresignedUrl.

Section Facts.

Variable BUCKET_NAME : string.
Variable error_response : Z -> string -> response.
Variable uuid4 : string.
Variable py_str : json -> string.
Variable s3_generate_presigned_url :
  string -> list (string * json) -> Z -> result string.

Local Notation lambda_handler :=
  (lambda_handler BUCKET_NAME error_response uuid4 py_str s3_generate_presigned_url).

(** C7.  For a presign request whose [fileType] is a string: a type
    that does not start with [image/] is answered with
    [error_response(400, 'Invalid file type')] and nothing is signed; a
    type that does is accepted: the handler asks S3 for a presigned PUT
    URL with that content type and answers 200 with [url], [key] and
    [bucket] once S3 has given the URL. *)
Theorem C7_content_type_gate
        (event : json) (request : string) (payload file_name : json)
        (file_type : string) :
  getitem event "body" = Return (JString request) ->
  loads request = Return payload ->
  getitem payload "fileName" = Return file_name ->
  getitem payload "fileType" = Return (JString file_type) ->
  if prefix "image/" file_type
  then
    let key := "uploads/" ++ uuid4 ++ "-" ++ format py_str file_name in
    let params := [ ("Bucket", JString BUCKET_NAME); ("Key", JString key);
                    ("ContentType", JString file_type) ] in
    lambda_handler event =
    ([GeneratePresignedUrl "put_object" params 900],
     match s3_generate_presigned_url "put_object" params 900 with
     | Return url =>
         Return {| statusCode := 200;
                   body := JObject [ ("url", JString url); ("key", JString key);
                                     ("bucket", JString BUCKET_NAME) ] |}
     | Raise e => Raise e
     end)
  else
    lambda_handler event = ([], Return (error_response 400 "Invalid file type")).
Proof.
  intros Hb Hl Hn Ht. unfold GeneratePresignedUrl.lambda_handler.
  rewrite Hb. cbn [lift bind json_loads]. rewrite Hl.
  cbn [lift bind]. rewrite Hn. cbn [lift bind]. rewrite Ht.
  cbn [lift bind startswith].
  destruct (prefix "image/" file_type); cbn [negb ret app]; [|reflexivity].
  cbn [call bind].
  now destruct (s3_generate_presigned_url _ _ _).
Qed.

End Facts.

Lemma C7_witness :
  Sample.presign "claim.pdf" "application/pdf" =
  ([], Return (Sample.error_response 400 "Invalid file type")) /\
  outcome (Sample.presign "vehicle_damage.jpg" "image/png") =
  Return {| statusCode := 200;
            body := JObject
              [ ("url", JString "https://bucket.s3.amazonaws.com/uploads/12345-vehicle_damage.jpg?X-Amz-...");
                ("key", JString "uploads/12345-vehicle_damage.jpg");
                ("bucket", JString "claims-images-bucket") ] |}.
Proof.
  split.
  - apply (C7_content_type_gate
             Sample.BUCKET_NAME Sample.error_response Sample.uuid4 Sample.py_str
             Sample.s3_generate_presigned_url
             (Sample.presign_event "claim.pdf" "application/pdf")
             (dq "{'fileName': 'claim.pdf', 'fileType': 'application/pdf'}")
             (JObject [ ("fileName", JString "claim.pdf");
                        ("fileType", JString "application/pdf") ])
             (JString "claim.pdf") "application/pdf");
      vm_compute; reflexivity.
  - pose proof (C7_content_type_gate
             Sample.BUCKET_NAME Sample.error_response Sample.uuid4 Sample.py_str
             Sample.s3_generate_presigned_url
             (Sample.presign_event "vehicle_damage.jpg" "image/png")
             (dq "{'fileName': 'vehicle_damage.jpg', 'fileType': 'image/png'}")
             (JObject [ ("fileName", JString "vehicle_damage.jpg");
                        ("fileType", JString "image/png") ])
             (JString "vehicle_damage.jpg") "image/png"
             eq_refl eq_refl eq_refl eq_refl) as H.
    cbv beta iota delta [prefix Ascii.eqb Bool.eqb andb] in H.
    unfold Sample.presign. rewrite H. vm_compute. reflexivity.
Defined.

End GeneratePresignedUrlFacts.

(** ** The upload page *)

Module AppFacts.
Import Json App.

(** The button that calls [handleUpload] is disabled while no file is
    selected. *)
Lemma no_file_button_disabled (File : Type) (s : state File) :
  file s = None -> button_disabled s = true.
Proof. unfold button_disabled. now intros ->. Qed.

(** With a file selected the handler ends with the mock analysis
    displayed, no error message and the busy flag cleared. *)
Lemma handleUpload_with_file (File : Type) (f : File) (s : state File) :
  file s = Some f ->
  handleUpload s =
  {| file := Some f; isUploading := false;
     result := Some mockAnalyze; error := "" |}.
Proof.
  intros Hf. destruct s as [f' u r e]. cbn in Hf. now subst.
Qed.

(** C9, as amended.  With no file selected the handler returns from the
    [try] block at once and leaves [file], [result] and [error] as they
    were; the [finally] block still runs, so [isUploading] is [false]
    afterwards, and the whole state is unchanged when it was [false]
    before. *)
Theorem C9_no_file_keeps_displays (File : Type) (s : state File) :
  file s = None ->
  handleUpload_try s = (s, Returned) /\
  file (handleUpload s) = file s /\
  result (handleUpload s) = result s /\
  error (handleUpload s) = error s /\
  isUploading (handleUpload s) = false /\
  (isUploading s = false -> handleUpload s = s).
Proof.
  intros Hf. unfold handleUpload, handleUpload_try. rewrite Hf.
  cbn. split; [reflexivity|]. split; [exact Hf|].
  do 3 (split; [reflexivity|]).
  intros Hu. destruct s as [f u r e]. cbn in *. now subst.
Qed.

Lemma C9_witness :
  handleUpload (initial unit) = initial unit.
Proof.
  apply (C9_no_file_keeps_displays unit (initial unit)); reflexivity.
Defined.

(** The claim of C9 fails: called with no file while [isUploading] is
    set, the handler clears the flag. *)
Lemma C9_counterexample :
  App.file Sample.busy_without_file = None /\
  isUploading (handleUpload Sample.busy_without_file) = false /\
  isUploading Sample.busy_without_file = true /\
  handleUpload Sample.busy_without_file <> Sample.busy_without_file.
Proof. repeat split; try reflexivity. discriminate. Qed.

(** C10.  Whatever file is selected and whatever the state was, the
    analysis [handleUpload] stores is the one constant record of
    [mockAnalyze]: a [summary] string and three hints, no [verdict], no
    [confidence]; it does not meet the Verdict contract. *)
Theorem C10_mock_is_constant_and_off_contract :
  (forall (File : Type) (f : File) (s : state File),
      result (handleUpload (setFile (Some f) s)) = Some mockAnalyze) /\
  (exists summary h1 h2 h3,
      mockAnalyze = JObject [ ("summary", JString summary);
                              ("hints", JArray [JString h1; JString h2; JString h3]) ]) /\
  Py.getitem mockAnalyze "verdict" = Py.Raise (Py.KeyError (JString "verdict")) /\
  Py.getitem mockAnalyze "confidence" = Py.Raise (Py.KeyError (JString "confidence")) /\
  Contract.conforms mockAnalyze = false.
Proof.
  split; [reflexivity|]. split; [|repeat split].
  unfold mockAnalyze. repeat eexists.
Qed.

End AppFacts.

(** ** Texts that cannot be JSON *)

Module ShapeFacts.
Import Json Py Shape.

Lemma strip_prefix_char_mismatch (p c : ascii) (rest : string) :
  (c =? p)%char = false -> strip_prefix_char p (String c rest) = None.
Proof.
  intros H. simpl. rewrite Ascii.eqb_sym. now rewrite H.
Qed.

Lemma literal_mismatch (p : ascii) (ps : string) (v : json) (c : ascii) (rest : string) :
  (c =? p)%char = false -> literal (String p ps) v (String c rest) = None.
Proof.
  intros H. unfold literal. cbn [strip_prefix].
  now rewrite (strip_prefix_char_mismatch _ _ _ H).
Qed.

Lemma not_digit_not_zero (c : ascii) : is_digit c = false -> (c =? "0")%char = false.
Proof.
  intros H. destruct (c =? "0")%char eqn:E; [|reflexivity].
  apply Ascii.eqb_eq in E. subst c. discriminate H.
Qed.

Lemma match_number_mismatch (c : ascii) (rest : string) :
  (c =? "-")%char = false -> is_digit c = false ->
  match_number (String c rest) = None.
Proof.
  intros Hm Hd. unfold match_number.
  rewrite (strip_prefix_char_mismatch _ _ _ Hm).
  unfold match_integer. now rewrite (not_digit_not_zero _ Hd), Hd.
Qed.

(** A character that begins no value makes the scanner fail at once. *)
Lemma scan_once_bad_start (fuel : nat) (c : ascii) (rest : string) :
  can_start_value c = false -> scan_once (S fuel) (String c rest) = Fail.
Proof.
  unfold can_start_value. intros H.
  repeat (apply Bool.orb_false_iff in H; destruct H as [H ?]).
  cbn [scan_once].
  repeat match goal with
         | E : (c =? _)%char = false |- context [(c =? _)%char] => rewrite E
         end.
  unfold scan_atom. cbn [fold_right].
  rewrite !literal_mismatch by assumption.
  now rewrite match_number_mismatch.
Qed.

Lemma loads_bad_start (raw : string) :
  starts_value raw = false -> loads raw = Raise JSONDecodeError.
Proof.
  unfold starts_value, loads. intros H.
  destruct (skip_whitespace raw) as [|c rest] eqn:E.
  - now rewrite Nat.add_1_r.
  - rewrite Nat.add_1_r. now rewrite scan_once_bad_start.
Qed.

End ShapeFacts.

(** ** analyzeImage: the calls a run makes *)

Module AnalyzeImageRuns.
Import Json Py Aws AnalyzeImage.

(** Case analysis on the next step of a run. *)
Ltac next_step :=
  cbn [bind lift call ret app fst snd outcome];
  match goal with
  | |- context [match ?r with Return _ => _ | Raise _ => _ end] =>
      destruct r eqn:?
  end.

Ltac all_steps :=
  repeat next_step; cbn [bind lift call ret app fst snd outcome].

Ltac split_run :=
  match goal with
  | |- context [let (_, _) := ?x in _] => destruct x
  end.

Section Runs.

Variable s3_get_object : json -> json -> result string.
Variable bedrock_converse : string -> string -> string -> result json.
Variable cloudwatch_put_metric_data : string -> list MetricDatum -> result unit.
Variable now : nat -> Q.

Local Notation call_model := (call_model s3_get_object bedrock_converse).
Local Notation parse_response := (parse_response cloudwatch_put_metric_data now).
Local Notation lambda_handler :=
  (lambda_handler s3_get_object bedrock_converse cloudwatch_put_metric_data now).
Local Notation metric_data := (metric_data now).
Local Notation log_line := (log_line now).

(** When the model has been reached, exactly the fetch and the
    inference have been made. *)
Lemma call_model_return (event : json) (t : list effect) (bucket key answer : json) :
  call_model event = (t, Return (bucket, key, answer)) ->
  exists image,
    s3_get_object bucket key = Return image /\
    t = [GetObject bucket key; Converse model_id image prompt].
Proof.
  unfold AnalyzeImage.call_model. all_steps; try discriminate.
  intros [= <- <- <- <-]. eexists. split; [eassumption|reflexivity].
Qed.

Lemma lambda_handler_after_model
      (event : json) (ctx : context) (t : list effect) (bucket key answer : json) :
  call_model event = (t, Return (bucket, key, answer)) ->
  lambda_handler event ctx =
  ((t ++ fst (parse_response ctx bucket key answer))%list,
   snd (parse_response ctx bucket key answer)).
Proof.
  intros H. unfold AnalyzeImage.lambda_handler. rewrite H. cbn [bind].
  now destruct (parse_response ctx bucket key answer).
Qed.

(** X1.  A run that answers has made exactly four calls, in this
    order: one [get_object] for the bucket and key of the request, one
    [converse] with the fixed model, the fetched image and the fixed
    prompt, one log line, one [put_metric_data]; the verdict and the
    confidence in the log line and in the metrics are the ones in the
    record answered. *)
Theorem X1_success_trace (event : json) (ctx : context) (r : response) :
  outcome (lambda_handler event ctx) = Return r ->
  exists request payload bucket key image verdict confidence,
    getitem event "body" = Return request /\
    json_loads request = Return payload /\
    getitem payload "bucket" = Return bucket /\
    getitem payload "key" = Return key /\
    s3_get_object bucket key = Return image /\
    fst (lambda_handler event ctx) =
    [ GetObject bucket key;
      Converse model_id image prompt;
      Log (log_line ctx bucket key verdict confidence);
      PutMetricData namespace (metric_data verdict confidence) ] /\
    getitem (body r) "verdict" = Return verdict /\
    getitem (body r) "confidence" = Return confidence /\
    statusCode r = 200.
Proof.
  unfold AnalyzeImage.lambda_handler, AnalyzeImage.call_model,
    AnalyzeImage.parse_response.
  all_steps; try discriminate.
  intros [= <-]. cbn [Aws.body statusCode].
  do 7 eexists. repeat split; eassumption || reflexivity.
Qed.

(** X2.  Whatever the event and whatever the clients do, the calls of
    a run are one of four sequences: none; the fetch alone, when S3
    raised; the fetch and the inference; or these two, the log line and
    the metrics.  So there is never a second fetch or inference, no
    inference without a fetched image, and no log line or metric unless
    the answer gave a verdict and a confidence. *)
Theorem X2_calls_of_any_run (event : json) (ctx : context) :
  let run := lambda_handler event ctx in
  (fst run = [] /\ exists e, snd run = Raise e) \/
  (exists bucket key e,
      fst run = [GetObject bucket key] /\
      s3_get_object bucket key = Raise e /\ snd run = Raise e) \/
  (exists bucket key image e,
      fst run = [GetObject bucket key; Converse model_id image prompt] /\
      s3_get_object bucket key = Return image /\ snd run = Raise e) \/
  (exists bucket key image verdict confidence,
      fst run = [ GetObject bucket key;
                  Converse model_id image prompt;
                  Log (log_line ctx bucket key verdict confidence);
                  PutMetricData namespace (metric_data verdict confidence) ] /\
      s3_get_object bucket key = Return image /\
      match cloudwatch_put_metric_data namespace (metric_data verdict confidence) with
      | Return _ => exists r, snd run = Return r
      | Raise e => snd run = Raise e
      end).
Proof.
  unfold AnalyzeImage.lambda_handler, AnalyzeImage.call_model,
    AnalyzeImage.parse_response.
  all_steps;
    first
      [ left; split; [reflexivity|eexists; reflexivity]
      | right; left; do 3 eexists;
        split; [reflexivity|]; split; [eassumption|reflexivity]
      | right; right; left; do 4 eexists;
        split; [reflexivity|]; split; [eassumption|reflexivity]
      | right; right; right; do 5 eexists;
        split; [reflexivity|]; split; [eassumption|];
        match goal with E : cloudwatch_put_metric_data _ _ = _ |- _ => rewrite E end;
        first [eexists; reflexivity | reflexivity] ].
Qed.

(** X3.  The request is checked before anything is called: a missing
    or unparseable [body], a missing [bucket] or a missing [key] ends
    the run with the exception of that step and no call made.
    Otherwise the first call fetches the bucket and key exactly as the
    request gave them; nothing restricts them to the upload prefix. *)
Theorem X3_request_checked_before_any_call (event : json) (ctx : context) :
  match getitem event "body" with
  | Raise e => lambda_handler event ctx = ([], Raise e)
  | Return request =>
      match json_loads request with
      | Raise e => lambda_handler event ctx = ([], Raise e)
      | Return body =>
          match getitem body "bucket" with
          | Raise e => lambda_handler event ctx = ([], Raise e)
          | Return bucket =>
              match getitem body "key" with
              | Raise e => lambda_handler event ctx = ([], Raise e)
              | Return key =>
                  hd_error (fst (lambda_handler event ctx)) =
                  Some (GetObject bucket key)
              end
          end
      end
  end.
Proof.
  unfold AnalyzeImage.lambda_handler, AnalyzeImage.call_model.
  cbn [bind lift].
  destruct (getitem event "body") as [request|e]; [|reflexivity].
  cbn [bind lift].
  destruct (json_loads request) as [body|e]; [|reflexivity].
  cbn [bind lift].
  destruct (getitem body "bucket") as [bucket|e]; [|reflexivity].
  cbn [bind lift].
  destruct (getitem body "key") as [key|e]; [|reflexivity].
  all_steps; try reflexivity.
  split_run. reflexivity.
Qed.

(** X4.  When S3 raises, the run ends there with that exception:
    Bedrock is not called, nothing is logged, nothing is retried. *)
Theorem X4_s3_failure_stops_run
        (event : json) (ctx : context) (request body bucket key : json)
        (e : exception) :
  getitem event "body" = Return request ->
  json_loads request = Return body ->
  getitem body "bucket" = Return bucket ->
  getitem body "key" = Return key ->
  s3_get_object bucket key = Raise e ->
  lambda_handler event ctx = ([GetObject bucket key], Raise e).
Proof.
  intros Hr Hb Hbu Hk Hs.
  unfold AnalyzeImage.lambda_handler, AnalyzeImage.call_model.
  rewrite Hr. cbn [bind lift]. rewrite Hb. cbn [bind lift].
  rewrite Hbu. cbn [bind lift]. rewrite Hk. cbn [bind lift call].
  now rewrite Hs.
Qed.

(** X5.  When Bedrock raises, the run ends with that exception after
    the fetch and the one inference call: no log line, no metric. *)
Theorem X5_bedrock_failure_stops_run
        (event : json) (ctx : context) (request body bucket key : json)
        (image : string) (e : exception) :
  getitem event "body" = Return request ->
  json_loads request = Return body ->
  getitem body "bucket" = Return bucket ->
  getitem body "key" = Return key ->
  s3_get_object bucket key = Return image ->
  bedrock_converse model_id image prompt = Raise e ->
  lambda_handler event ctx =
  ([GetObject bucket key; Converse model_id image prompt], Raise e).
Proof.
  intros Hr Hb Hbu Hk Hs Hm.
  unfold AnalyzeImage.lambda_handler, AnalyzeImage.call_model.
  rewrite Hr. cbn [bind lift]. rewrite Hb. cbn [bind lift].
  rewrite Hbu. cbn [bind lift]. rewrite Hk. cbn [bind lift call].
  rewrite Hs. cbn [bind lift call app]. now rewrite Hm.
Qed.

(** X6.  When the model's text gives no verdict and confidence (it
    does not parse, or a field is missing), the run ends in an
    exception right after the inference: the failure is neither logged
    nor counted in any metric. *)
Theorem X6_unusable_answer_is_silent
        (event : json) (ctx : context) (t : list effect)
        (bucket key : json) (raw : string) :
  call_model event = (t, Return (bucket, key, JString raw)) ->
  Shape.gives_fields raw = false ->
  exists image e,
    lambda_handler event ctx =
    ([GetObject bucket key; Converse model_id image prompt], Raise e).
Proof.
  intros Hm Hbad.
  destruct (call_model_return _ _ _ _ _ Hm) as (image & _ & ->).
  rewrite (lambda_handler_after_model _ ctx _ _ _ _ Hm).
  exists image. unfold AnalyzeImage.parse_response. cbn [json_loads].
  unfold Shape.gives_fields in Hbad.
  destruct (loads raw) as [a|e]; [|eexists; reflexivity].
  cbn [bind lift].
  destruct (getitem a "verdict") as [v|e]; [|eexists; reflexivity].
  cbn [bind lift].
  destruct (getitem a "confidence") as [c|e]; [discriminate|eexists; reflexivity].
Qed.

(** X7.  When CloudWatch raises, the run ends with that exception
    although the answer was usable: the log line has been written, the
    record is not returned. *)
Theorem X7_cloudwatch_failure_loses_answer
        (event : json) (ctx : context) (t : list effect)
        (bucket key : json) (raw : string) (analysis verdict confidence : json)
        (e : exception) :
  call_model event = (t, Return (bucket, key, JString raw)) ->
  loads raw = Return analysis ->
  getitem analysis "verdict" = Return verdict ->
  getitem analysis "confidence" = Return confidence ->
  cloudwatch_put_metric_data namespace (metric_data verdict confidence) = Raise e ->
  lambda_handler event ctx =
  ((t ++ [ Log (log_line ctx bucket key verdict confidence);
           PutMetricData namespace (metric_data verdict confidence) ])%list,
   Raise e).
Proof.
  intros Hm Hl Hv Hc Hw.
  rewrite (lambda_handler_after_model _ ctx _ _ _ _ Hm).
  unfold AnalyzeImage.parse_response. cbn [json_loads]. rewrite Hl.
  cbn [bind lift]. rewrite Hv. cbn [bind lift]. rewrite Hc.
  cbn [bind lift call]. now rewrite Hw.
Qed.

(** X8.  When Bedrock's answer has no content block the run ends with
    [IndexError], and when its first block has no [text] with the
    exception of that lookup; in both cases after the fetch and the
    inference, with nothing logged. *)
Theorem X8_answer_without_text
        (event : json) (ctx : context) (request body bucket key : json)
        (image : string) (reply output message : json) (blocks : list json) :
  getitem event "body" = Return request ->
  json_loads request = Return body ->
  getitem body "bucket" = Return bucket ->
  getitem body "key" = Return key ->
  s3_get_object bucket key = Return image ->
  bedrock_converse model_id image prompt = Return reply ->
  getitem reply "output" = Return output ->
  getitem output "message" = Return message ->
  getitem message "content" = Return (JArray blocks) ->
  match blocks with
  | [] =>
      lambda_handler event ctx =
      ([GetObject bucket key; Converse model_id image prompt], Raise IndexError)
  | block :: _ =>
      forall e, getitem block "text" = Raise e ->
                lambda_handler event ctx =
                ([GetObject bucket key; Converse model_id image prompt], Raise e)
  end.
Proof.
  intros Hr Hb Hbu Hk Hs Hm Ho Hmsg Hc.
  unfold AnalyzeImage.lambda_handler, AnalyzeImage.call_model.
  rewrite Hr. cbn [bind lift]. rewrite Hb. cbn [bind lift].
  rewrite Hbu. cbn [bind lift]. rewrite Hk. cbn [bind lift call].
  rewrite Hs. cbn [bind lift call app]. rewrite Hm. cbn [bind lift call app].
  rewrite Ho. cbn [bind lift app]. rewrite Hmsg. cbn [bind lift app].
  rewrite Hc. cbn [bind lift app getfirst].
  destruct blocks as [|block rest]; [reflexivity|].
  intros e He. cbn [bind lift app]. now rewrite He.
Qed.

(** X9.  A text that is valid JSON but not an object (a list of
    records, a string, a number) ends the run with [TypeError] at the
    first field access, with nothing logged. *)
Theorem X9_non_object_answer
        (event : json) (ctx : context) (t : list effect)
        (bucket key : json) (raw : string) (v : json) :
  call_model event = (t, Return (bucket, key, JString raw)) ->
  loads raw = Return v ->
  Text.is_object_text raw = false ->
  lambda_handler event ctx = (t, Raise TypeError).
Proof.
  intros Hm Hl Hn.
  rewrite (lambda_handler_after_model _ ctx _ _ _ _ Hm).
  unfold Text.is_object_text in Hn. rewrite Hl in Hn.
  unfold AnalyzeImage.parse_response. cbn [json_loads]. rewrite Hl.
  cbn [bind lift].
  destruct v; try discriminate; cbn [getitem bind lift fst snd];
    now rewrite app_nil_r.
Qed.

(** X10.  A text that is empty, blank, or begins (after whitespace)
    with a character no JSON value begins with, such as prose or a
    Markdown fence, ends the run with [JSONDecodeError], with nothing
    logged. *)
Theorem X10_answer_with_bad_start
        (event : json) (ctx : context) (t : list effect)
        (bucket key : json) (raw : string) :
  call_model event = (t, Return (bucket, key, JString raw)) ->
  Shape.starts_value raw = false ->
  lambda_handler event ctx = (t, Raise JSONDecodeError).
Proof.
  intros Hm Hs.
  rewrite (lambda_handler_after_model _ ctx _ _ _ _ Hm).
  unfold AnalyzeImage.parse_response. cbn [json_loads].
  rewrite (ShapeFacts.loads_bad_start _ Hs). cbn [bind lift fst snd].
  now rewrite app_nil_r.
Qed.

End Runs.

(** *** Runs of the sample deployment, with and without outages *)

Lemma X1_witness :
  exists request payload bucket key image verdict confidence,
    getitem Sample.analyze_event "body" = Return request /\
    json_loads request = Return payload /\
    getitem payload "bucket" = Return bucket /\
    getitem payload "key" = Return key /\
    Sample.s3_get_object bucket key = Return image /\
    fst (Sample.analyze Sample.embedded_answer) =
    [ GetObject bucket key;
      Converse model_id image prompt;
      Log (log_line Sample.now Sample.ctx bucket key verdict confidence);
      PutMetricData namespace (metric_data Sample.now verdict confidence) ] /\
    getitem (body (Sample.ok Sample.embedded_record)) "verdict" = Return verdict /\
    getitem (body (Sample.ok Sample.embedded_record)) "confidence" = Return confidence /\
    statusCode (Sample.ok Sample.embedded_record) = 200.
Proof.
  apply (X1_success_trace
           Sample.s3_get_object (Sample.bedrock_converse Sample.embedded_answer)
           Sample.cloudwatch_put_metric_data Sample.now
           Sample.analyze_event Sample.ctx (Sample.ok Sample.embedded_record)).
  vm_compute; reflexivity.
Defined.

Lemma X4_witness :
  lambda_handler Outage.s3_get_object
    (Sample.bedrock_converse Sample.embedded_answer)
    Sample.cloudwatch_put_metric_data Sample.now Sample.analyze_event Sample.ctx =
  ([GetObject Outage.bucket Outage.key], Raise (ServiceError "NoSuchKey")).
Proof.
  apply (X4_s3_failure_stops_run
           Outage.s3_get_object (Sample.bedrock_converse Sample.embedded_answer)
           Sample.cloudwatch_put_metric_data Sample.now
           Sample.analyze_event Sample.ctx
           Outage.request Outage.payload Outage.bucket Outage.key);
    vm_compute; reflexivity.
Defined.

Lemma X5_witness :
  lambda_handler Sample.s3_get_object Outage.bedrock_converse
    Sample.cloudwatch_put_metric_data Sample.now Sample.analyze_event Sample.ctx =
  (Outage.calls, Raise (ServiceError "ThrottlingException")).
Proof.
  apply (X5_bedrock_failure_stops_run
           Sample.s3_get_object Outage.bedrock_converse
           Sample.cloudwatch_put_metric_data Sample.now
           Sample.analyze_event Sample.ctx
           Outage.request Outage.payload Outage.bucket Outage.key);
    vm_compute; reflexivity.
Defined.

Lemma X6_witness :
  exists image e,
    Sample.analyze Sample.defaulting_answer =
    ([GetObject Outage.bucket Outage.key; Converse model_id image prompt], Raise e).
Proof.
  apply (X6_unusable_answer_is_silent
           Sample.s3_get_object (Sample.bedrock_converse Sample.defaulting_answer)
           Sample.cloudwatch_put_metric_data Sample.now
           Sample.analyze_event Sample.ctx Outage.calls
           Outage.bucket Outage.key Sample.defaulting_answer);
    vm_compute; reflexivity.
Defined.

Lemma X7_witness :
  lambda_handler Sample.s3_get_object
    (Sample.bedrock_converse Sample.embedded_answer)
    Outage.cloudwatch_put_metric_data Sample.now Sample.analyze_event Sample.ctx =
  ((Outage.calls ++
    [ Log (log_line Sample.now Sample.ctx Outage.bucket Outage.key
             (JString "AI_GENERATED") (JFloat (Qred 0.92)));
      PutMetricData namespace
        (metric_data Sample.now (JString "AI_GENERATED") (JFloat (Qred 0.92))) ])%list,
   Raise (ServiceError "AccessDenied")).
Proof.
  apply (X7_cloudwatch_failure_loses_answer
           Sample.s3_get_object (Sample.bedrock_converse Sample.embedded_answer)
           Outage.cloudwatch_put_metric_data Sample.now
           Sample.analyze_event Sample.ctx Outage.calls
           Outage.bucket Outage.key Sample.embedded_answer
           Sample.embedded_record);
    vm_compute; reflexivity.
Defined.

Lemma X8_witness :
  lambda_handler Sample.s3_get_object Outage.bedrock_no_text
    Sample.cloudwatch_put_metric_data Sample.now Sample.analyze_event Sample.ctx =
  (Outage.calls, Raise (KeyError (JString "text"))).
Proof.
  refine (X8_answer_without_text
            Sample.s3_get_object Outage.bedrock_no_text
            Sample.cloudwatch_put_metric_data Sample.now
            Sample.analyze_event Sample.ctx
            Outage.request Outage.payload Outage.bucket Outage.key
            "<image bytes>"
            Outage.no_text_reply Outage.no_text_output Outage.no_text_message
            Outage.no_text_blocks
            _ _ _ _ _ _ _ _ _ (KeyError (JString "text")) _);
    vm_compute; reflexivity.
Defined.

Lemma X9_witness :
  Sample.analyze Shape.list_answer = (Outage.calls, Raise TypeError).
Proof.
  apply (X9_non_object_answer
           Sample.s3_get_object (Sample.bedrock_converse Shape.list_answer)
           Sample.cloudwatch_put_metric_data Sample.now
           Sample.analyze_event Sample.ctx Outage.calls
           Outage.bucket Outage.key Shape.list_answer
           (JArray [JObject [ ("verdict", JString "AI_GENERATED");
                              ("confidence", JFloat (Qred 0.92));
                              ("hints", JArray []) ]]));
    vm_compute; reflexivity.
Defined.

Lemma X10_witness :
  Sample.analyze Shape.fenced_answer = (Outage.calls, Raise JSONDecodeError).
Proof.
  apply (X10_answer_with_bad_start
           Sample.s3_get_object (Sample.bedrock_converse Shape.fenced_answer)
           Sample.cloudwatch_put_metric_data Sample.now
           Sample.analyze_event Sample.ctx Outage.calls
           Outage.bucket Outage.key Shape.fenced_answer);
    vm_compute; reflexivity.
Defined.

End AnalyzeImageRuns.

(** ** generatePresignedUrl: every run *)

Module GeneratePresignedUrlRuns.
Import Json Py Aws GeneratePresignedUrl.

Section Runs.

Variable BUCKET_NAME : string.
Variable error_response : Z -> string -> response.
Variable uuid4 : string.
Variable py_str : json -> string.
Variable s3_generate_presigned_url :
  string -> list (string * json) -> Z -> result string.

Local Notation lambda_handler :=
  (lambda_handler BUCKET_NAME error_response uuid4 py_str s3_generate_presigned_url).

(** X11.  Whatever the event, a run ends in one of three ways: an
    exception before anything is called; the answer
    [error_response(400, 'Invalid file type')] with nothing called; or
    exactly one [generate_presigned_url] call, for [put_object] on
    [BUCKET_NAME], valid 900 seconds, with the declared content type
    (which begins with [image/]) and the key [uploads/<uuid>-<name>].
    In the last case an exception of S3 ends the run unchanged, and
    otherwise the answer is 200 with the URL S3 gave, the key that was
    signed and the bucket. *)
Theorem X11_presign_runs (event : json) :
  let run := lambda_handler event in
  (exists e, run = ([], Raise e)) \/
  run = ([], Return (error_response 400 "Invalid file type")) \/
  (exists file_name file_type key,
      key = "uploads/" ++ uuid4 ++ "-" ++ format py_str file_name /\
      prefix "uploads/" key = true /\
      prefix "image/" file_type = true /\
      let params := [ ("Bucket", JString BUCKET_NAME); ("Key", JString key);
                      ("ContentType", JString file_type) ] in
      fst run = [GeneratePresignedUrl "put_object" params 900] /\
      match s3_generate_presigned_url "put_object" params 900 with
      | Return url =>
          snd run = Return {| statusCode := 200;
                              body := JObject [ ("url", JString url);
                                                ("key", JString key);
                                                ("bucket", JString BUCKET_NAME) ] |}
      | Raise e => snd run = Raise e
      end).
Proof.
  unfold GeneratePresignedUrl.lambda_handler. cbn zeta.
  cbn [bind lift].
  destruct (getitem event "body") as [request|e]; [|left; eexists; reflexivity].
  cbn [bind lift].
  destruct (json_loads request) as [payload|e]; [|left; eexists; reflexivity].
  cbn [bind lift].
  destruct (getitem payload "fileName") as [file_name|e];
    [|left; eexists; reflexivity].
  cbn [bind lift].
  destruct (getitem payload "fileType") as [file_type|e];
    [|left; eexists; reflexivity].
  destruct file_type as [| | | | | |ft| |];
    try (left; eexists; reflexivity).
  cbn [bind lift startswith].
  destruct (prefix "image/" ft) eqn:Hp; cbn [negb];
    [|right; left; reflexivity].
  right; right. exists file_name, ft, ("uploads/" ++ uuid4 ++ "-" ++ format py_str file_name).
  split; [reflexivity|]. split; [reflexivity|]. split; [exact Hp|].
  cbn [bind call ret app].
  destruct (s3_generate_presigned_url _ _ _); split; reflexivity.
Qed.

(** X12.  The two fields are read before the type is judged,
    [fileName] first: a request without [fileName] raises
    [KeyError('fileName')] even when its type is not an image type, and
    one with a name but no [fileType] raises [KeyError('fileType')];
    neither gets the 400 answer, and S3 is not called. *)
Theorem X12_presign_missing_field
        (event request : json) (fields : list (string * json)) :
  getitem event "body" = Return request ->
  json_loads request = Return (JObject fields) ->
  (dict_get "fileName" fields = None ->
   lambda_handler event = ([], Raise (KeyError (JString "fileName")))) /\
  (dict_get "fileName" fields <> None -> dict_get "fileType" fields = None ->
   lambda_handler event = ([], Raise (KeyError (JString "fileType")))).
Proof.
  intros Hr Hb. unfold GeneratePresignedUrl.lambda_handler.
  rewrite Hr. cbn [bind lift]. rewrite Hb. cbn [bind lift getitem].
  split.
  - intros ->. reflexivity.
  - intros Hn Ht. destruct (dict_get "fileName" fields); [|congruence].
    cbn [bind lift]. now rewrite Ht.
Qed.

(** X13.  A [fileType] that is not a string (null, a number, a list)
    ends the run with [AttributeError]: such a request gets no 400
    answer, and S3 is not called. *)
Theorem X13_presign_type_not_a_string
        (event request payload file_name file_type : json) :
  getitem event "body" = Return request ->
  json_loads request = Return payload ->
  getitem payload "fileName" = Return file_name ->
  getitem payload "fileType" = Return file_type ->
  Shape.is_string file_type = false ->
  lambda_handler event = ([], Raise AttributeError).
Proof.
  intros Hr Hb Hn Ht Hs. unfold GeneratePresignedUrl.lambda_handler.
  rewrite Hr. cbn [bind lift]. rewrite Hb. cbn [bind lift].
  rewrite Hn. cbn [bind lift]. rewrite Ht. cbn [bind lift].
  destruct file_type; try discriminate; reflexivity.
Qed.

End Runs.

Lemma X12_witness :
  GeneratePresignedUrl.lambda_handler Sample.BUCKET_NAME Sample.error_response
    Sample.uuid4 Sample.py_str Sample.s3_generate_presigned_url
    Outage.presign_without_name =
  ([], Raise (KeyError (JString "fileName"))).
Proof.
  refine (proj1 (X12_presign_missing_field
                   Sample.BUCKET_NAME Sample.error_response Sample.uuid4
                   Sample.py_str Sample.s3_generate_presigned_url
                   Outage.presign_without_name
                   (JString (dq "{'fileType': 'application/pdf'}"))
                   [("fileType", JString "application/pdf")] _ _) _);
    vm_compute; reflexivity.
Defined.

Lemma X13_witness :
  GeneratePresignedUrl.lambda_handler Sample.BUCKET_NAME Sample.error_response
    Sample.uuid4 Sample.py_str Sample.s3_generate_presigned_url
    Outage.presign_null_type =
  ([], Raise AttributeError).
Proof.
  apply (X13_presign_type_not_a_string
           Sample.BUCKET_NAME Sample.error_response Sample.uuid4
           Sample.py_str Sample.s3_generate_presigned_url
           Outage.presign_null_type
           (JString (dq "{'fileName': 'a.png', 'fileType': null}"))
           (JObject [("fileName", JString "a.png"); ("fileType", JNull)])
           (JString "a.png") JNull);
    vm_compute; reflexivity.
Defined.

End GeneratePresignedUrlRuns.

(** ** The upload page over time *)

Module PageFacts.
Import Json App Page.

Section Facts.

Variable File : Type.

(** X14.  However it is called, [handleUpload] ends with the busy flag
    cleared and the selected file untouched, and its [catch] block
    never runs: the [try] block cannot throw, so the message "Error
    during upload or analysis." is never set, and the error text
    afterwards is empty or what it was. *)
Theorem X14_handleUpload_settles (s : state File) :
  isUploading (handleUpload s) = false /\
  file (handleUpload s) = file s /\
  handleUpload_catch File (handleUpload_try s) = handleUpload_try s /\
  (error (handleUpload s) = "" \/ error (handleUpload s) = error s).
Proof.
  unfold handleUpload, handleUpload_try.
  destruct (file s) eqn:Hf; cbn; rewrite ?Hf; auto.
Qed.

(** The two halves of [Page] put together are [App.handleUpload]. *)
Lemma handleUpload_start_resume (s : state File) :
  handleUpload s =
  let (waiting_state, suspended) := handleUpload_start s in
  if suspended then handleUpload_resume mockAnalyze waiting_state
  else waiting_state.
Proof.
  unfold handleUpload, handleUpload_try, handleUpload_start.
  destruct (file s); reflexivity.
Qed.

Lemma step_settled (p : page File) (e : event File) :
  settled p -> settled (step p e).
Proof.
  intros H. destruct e as [files| |]; cbn [step].
  - destruct H as (He & Hw & Hu & Hr).
    split; [reflexivity|]. split; [exact Hw|]. split; [exact Hu|].
    left; reflexivity.
  - destruct (button_disabled (ui p)) eqn:Hd; [exact H|].
    destruct H as (He & Hw & Hu & Hr).
    unfold button_disabled in Hd. unfold handleUpload_start.
    destruct (file (ui p)) eqn:Hf; [|discriminate].
    assert (Hz : waiting p = 0%nat).
    { destruct (waiting p) as [|[|n]]; [reflexivity| |lia].
      destruct Hu as [_ Hu]. rewrite Hu in Hd; [discriminate|reflexivity]. }
    unfold settled. cbn. rewrite Hz.
    split; [reflexivity|]. split; [lia|]. split; [tauto|exact Hr].
  - destruct (waiting p) as [|n] eqn:Hn; [exact H|].
    destruct H as (He & Hw & Hu & Hr). rewrite Hn in Hw, Hu.
    assert (n = 0%nat) as -> by lia.
    unfold settled. cbn.
    split; [exact He|]. split; [lia|].
    split; [split; discriminate|right; reflexivity].
Qed.

Lemma run_settled (events : list (event File)) : settled (run events).
Proof.
  unfold run.
  assert (H0 : settled (start_page File)).
  { split; [reflexivity|]. split; [apply Nat.le_0_l|].
    split; [split; discriminate|left; reflexivity]. }
  revert H0. generalize (start_page File).
  induction events as [|e events IH]; intros p Hp; cbn [fold_left]; [exact Hp|].
  apply IH. now apply step_settled.
Qed.

(** X16.  After any sequence of file changes, clicks and timer
    firings from the first render: no error message is shown; at most
    one upload waits for its timer; the busy flag is set exactly while
    one waits; and the result shown is none or the mock's record. *)
Theorem X16_page_invariant (events : list (event File)) :
  let p := run events in
  error (ui p) = "" /\
  (waiting p <= 1)%nat /\
  (isUploading (ui p) = true <-> waiting p = 1%nat) /\
  (result (ui p) = None \/ result (ui p) = Some mockAnalyze).
Proof.
  cbn zeta. destruct (run_settled events) as (He & Hw & Hu & Hr).
  split; [exact He|]. split; [exact Hw|]. split; [exact Hu|exact Hr].
Qed.

(** X17.  Changing the selection while an upload waits cancels
    nothing: when the timer fires the mock's record is shown and the
    busy flag cleared, whatever is selected by then, even no file. *)
Theorem X17_change_while_waiting
        (events : list (event File)) (files : list File) :
  waiting (run events) = 1%nat ->
  let p := step (step (run events) (Change files)) Timer in
  file (ui p) = hd_error files /\
  result (ui p) = Some mockAnalyze /\
  isUploading (ui p) = false /\
  waiting p = 0%nat.
Proof.
  intros Hw. cbn [step waiting ui]. rewrite Hw. cbn. auto.
Qed.

(** X18.  A second click changes nothing: once a click has started an
    upload the button is disabled until the timer fires, and a click
    on a disabled button is not delivered. *)
Theorem X18_second_click_ignored (p : page File) :
  step (step p Click) Click = step p Click.
Proof.
  cbn [step].
  destruct (button_disabled (ui p)) eqn:Hd; [now rewrite Hd|].
  unfold button_disabled in Hd. unfold handleUpload_start.
  destruct (file (ui p)) eqn:Hf; [|discriminate].
  cbn. unfold button_disabled. cbn. now rewrite Hf.
Qed.

(** X20.  The busy flag cannot stay set: from any page reached, one
    firing of the timer leaves no upload waiting and the flag cleared,
    so the button is enabled again as soon as a file is selected. *)
Theorem X20_timer_clears_busy (events : list (event File)) :
  let p := step (run events) Timer in
  waiting p = 0%nat /\
  isUploading (ui p) = false /\
  button_disabled (ui p) = match file (ui p) with None => true | Some _ => false end.
Proof.
  cbn zeta. destruct (run_settled events) as (_ & Hw & Hu & _).
  cbn [step].
  destruct (waiting (run events)) as [|n] eqn:Hn.
  - assert (Hb : isUploading (ui (run events)) = false).
    { destruct (isUploading (ui (run events))); [|reflexivity].
      destruct Hu as [Hu _]. discriminate (Hu eq_refl). }
    rewrite Hn. unfold button_disabled. rewrite Hb. auto.
  - assert (n = 0%nat) as -> by lia. cbn.
    unfold button_disabled. cbn. auto.
Qed.

End Facts.

Lemma X17_witness :
  let p := step (step (run [Change [tt]; Click]) (Change [])) Timer in
  file (ui p) = None /\
  result (ui p) = Some mockAnalyze /\
  isUploading (ui p) = false /\
  waiting p = 0%nat.
Proof.
  apply (X17_change_while_waiting unit [Change [tt]; Click] []). reflexivity.
Defined.

End PageFacts.

(** ** The sidebar *)

Module SidebarFacts.
Import Sidebar.

Lemma after_is_rendered (clicks : list item) (a : string) :
  (exists it, In it rendered /\ a = id it) ->
  Forall (fun it => In it rendered) clicks ->
  exists it, In it rendered /\ fold_left (fun a it => onClick it a) clicks a = id it.
Proof.
  revert a. induction clicks as [|c clicks IH]; intros a Ha Hc; [exact Ha|].
  cbn [fold_left]. inversion Hc as [|? ? Hin Hrest]; subst.
  apply IH; [|exact Hrest]. exists c. split; [exact Hin|reflexivity].
Qed.

Lemma one_active (it : item) :
  In it rendered -> filter (isActive (id it)) rendered = [it].
Proof.
  intros H. repeat (destruct H as [<-|H]; [reflexivity|]). destruct H.
Qed.

(** X19.  Exactly one entry is highlighted at any time: the one
    clicked last, or AI Detection before any click.  The two lists
    share no identifier, so a click in one never lights an entry of
    the other as well. *)
Theorem X19_one_entry_active (clicks : list item) :
  Forall (fun it => In it rendered) clicks ->
  exists it,
    In it rendered /\
    after clicks = id it /\
    filter (isActive (after clicks)) rendered = [it].
Proof.
  intros H.
  destruct (after_is_rendered clicks initial) as (it & Hin & Hid); [|exact H|].
  - eexists. split; [left; reflexivity|reflexivity].
  - exists it. unfold after. rewrite Hid. auto using one_active.
Qed.

Lemma X19_witness :
  exists it,
    In it rendered /\
    after (bottomItems ++ navigationItems) = id it /\
    filter (isActive (after (bottomItems ++ navigationItems))) rendered = [it].
Proof.
  apply (X19_one_entry_active (bottomItems ++ navigationItems)).
  apply Forall_forall. intros it Hin. vm_compute in Hin |- *. tauto.
Defined.

End SidebarFacts.
